(** * video-utils: the overlay and concatenation tools

    A shallow embedding of [overlay_image.py] and [concatenate_videos.py].
    Both scripts are straight-line Python: they validate their arguments,
    build one [ffmpeg] command line and run it.  The embedding keeps that
    shape:

    - [Py] models the Python built-ins the scripts call ([str.split],
      [str.replace], [str.lower], [float], [repr] of a float, [str] of an
      int, a stable [list.sort]) on byte strings; floats are IEEE binary64
      values represented with the standard library's [spec_float];
    - [Proc] is a small monad for the effects of a run: the events a tool
      emits (prints, child processes, directory creation) and the three ways
      a Python computation ends (a value, an exception, [sys.exit]);
    - [OverlayImage] and [ConcatenateVideos] follow the two scripts function
      by function. *)

From Stdlib Require Import ZArith List String Ascii Bool Lia.
From Stdlib Require Import DecimalString SpecFloat.
From Stdlib Require Import Permutation Sorted.
Import ListNotations.

Local Open Scope list_scope.
Local Open Scope string_scope.

(** ** Exceptions and results *)

(** The exception classes the two scripts raise or let through.  [OSError]
    stands for any other operating-system failure of a child process. *)
Inductive exn : Type :=
| FileNotFoundError (msg : string)
| NotADirectoryError (msg : string)
| ValueError (msg : string)
| OSError (msg : string).

(** [str(e)] of an exception built from one message. *)
Definition exn_str (e : exn) : string :=
  match e with
  | FileNotFoundError m | NotADirectoryError m | ValueError m | OSError m => m
  end.

(** A Python expression either yields a value or raises. *)
Inductive result (A : Type) : Type :=
| Ok (a : A)
| Raise (e : exn).
Arguments Ok {A} a.
Arguments Raise {A} e.

Definition bind {A B : Type} (r : result A) (k : A -> result B) : result B :=
  match r with
  | Ok a => k a
  | Raise e => Raise e
  end.

Declare Scope result_scope.
Delimit Scope result_scope with result.
Notation "x <- r ;; k" := (bind r (fun x => k))
  (at level 61, r at next level, right associativity) : result_scope.
Notation "' pat <- r ;; k" := (bind r (fun x => match x with pat => k end))
  (at level 61, pat pattern, r at next level, right associativity)
  : result_scope.

(** ** Python built-ins *)

Module Py.

(** *** Strings *)

(** [s.endswith(c)] for a one-character suffix. *)
Fixpoint endswith (s : string) (c : ascii) : bool :=
  match s with
  | "" => false
  | String a "" => Ascii.eqb a c
  | String _ s' => endswith s' c
  end.

(** [s[:-1]]: everything but the last character. *)
Fixpoint drop_last (s : string) : string :=
  match s with
  | "" => ""
  | String _ "" => ""
  | String a s' => String a (drop_last s')
  end.

(** [s.split(sep)] for a one-character separator; never the empty list. *)
Fixpoint split (sep : ascii) (s : string) : list string :=
  match s with
  | "" => [""]
  | String a s' =>
      if Ascii.eqb a sep then "" :: split sep s'
      else match split sep s' with
           | h :: t => String a h :: t
           | [] => [String a ""]
           end
  end.

(** [sep.join(parts)]. *)
Definition join (sep : string) (parts : list string) : string :=
  String.concat sep parts.

(** [s.replace(old, new)] for a non-empty [old]: a left-to-right scan that
    replaces non-overlapping occurrences.  [skip] counts the characters of
    a matched occurrence still to be dropped. *)
Fixpoint replace_from (old new : string) (skip : nat) (s : string) : string :=
  match s with
  | "" => ""
  | String a s' =>
      match skip with
      | S k => replace_from old new k s'
      | O =>
          if String.prefix old s
          then new ++ replace_from old new (String.length old - 1) s'
          else String a (replace_from old new 0 s')
      end
  end.

Definition replace (old new s : string) : string := replace_from old new 0 s.

Definition is_upper (a : ascii) : bool :=
  let n := nat_of_ascii a in (65 <=? n)%nat && (n <=? 90)%nat.

Definition lower_char (a : ascii) : ascii :=
  if is_upper a then ascii_of_nat (nat_of_ascii a + 32) else a.

(** [s.lower()] on the ASCII letters; bytes of other characters are kept. *)
Fixpoint lower (s : string) : string :=
  match s with
  | "" => ""
  | String a s' => String (lower_char a) (lower s')
  end.

(** [s.rfind(c)]: index of the last occurrence, [None] for Python's -1. *)
Fixpoint rfind (c : ascii) (s : string) : option nat :=
  match s with
  | "" => None
  | String a s' =>
      match rfind c s' with
      | Some i => Some (S i)
      | None => if Ascii.eqb a c then Some 0%nat else None
      end
  end.

(** [s[i:]]. *)
Fixpoint drop (i : nat) (s : string) : string :=
  match i, s with
  | O, _ => s
  | S k, "" => ""
  | S k, String _ s' => drop k s'
  end.

(** Truth value of an [Optional[str]]: [None] and [""] are false. *)
Definition truthy (o : option string) : bool :=
  match o with
  | Some (String _ _) => true
  | _ => false
  end.

(** *** Integers *)

(** [str(n)] of an int. *)
Definition str_int (n : Z) : string := NilZero.string_of_int (Z.to_int n).

(** *** Floats

    A Python float is an IEEE binary64 value.  [spec_float] keeps a sign,
    an integer mantissa and a binary exponent; the operations below round
    to nearest, ties to even, as the hardware does.  No operation used by
    the scripts raises: overflow gives an infinity, invalid operations a
    NaN, and the only division has the non-zero divisor 100. *)

Definition float : Type := spec_float.
Definition prec : Z := 53.
Definition emax : Z := 1024.

Definition fadd : float -> float -> float := SFadd prec emax.
Definition fmul : float -> float -> float := SFmul prec emax.
Definition fdiv : float -> float -> float := SFdiv prec emax.
Definition flt : float -> float -> bool := SFltb.
Definition fle : float -> float -> bool := SFleb.

(** The float of an int operand ([3600], [60], [100], [1.0], ...). *)
Definition float_of_int (n : Z) : float := binary_normalize prec emax n 0 false.

(** Same float, bit for bit up to the NaN payload. *)
Definition float_same (x y : float) : bool :=
  match x, y with
  | S754_zero a, S754_zero b => Bool.eqb a b
  | S754_infinity a, S754_infinity b => Bool.eqb a b
  | S754_nan, S754_nan => true
  | S754_finite a m e, S754_finite b n f =>
      Bool.eqb a b && Pos.eqb m n && Z.eqb e f
  | _, _ => false
  end.

(** The float nearest to [m * 10^e10] (with [0 <= m]), negated when [neg].
    For a negative [e10] the quotient is computed with 64 spare bits and
    the remainder's position decides the rounding. *)
Definition float_of_decimal (neg : bool) (m e10 : Z) : float :=
  match m with
  | Z0 => S754_zero neg
  | Zneg _ => S754_nan
  | Zpos _ =>
      if (0 <=? e10)%Z
      then binary_normalize prec emax
             (if neg then - (m * 10 ^ e10) else m * 10 ^ e10)%Z 0 false
      else
        let d := (10 ^ (- e10))%Z in
        let sh := Z.max 0 (Zdigits2 d - Zdigits2 m + 64) in
        let '(q, r) := Z.div_eucl (Z.shiftl m sh) d in
        binary_round_aux prec emax neg q (- sh) (new_location d r)
  end.

Definition is_digit (a : ascii) : bool :=
  let n := nat_of_ascii a in (48 <=? n)%nat && (n <=? 57)%nat.

(** ASCII white space, as [float] strips it. *)
Definition is_space (a : ascii) : bool :=
  let n := nat_of_ascii a in
  ((9 <=? n)%nat && (n <=? 13)%nat) || (n =? 32)%nat.

Fixpoint lstrip (s : string) : string :=
  match s with
  | String a s' => if is_space a then lstrip s' else s
  | "" => ""
  end.

Fixpoint rstrip (s : string) : string :=
  match s with
  | "" => ""
  | String a s' =>
      match rstrip s' with
      | "" => if is_space a then "" else String a ""
      | t => String a t
      end
  end.

(** Underscores are digit separators: each must stand between two digits.
    [prev] is the character before [s]. *)
Fixpoint remove_underscores (prev : ascii) (s : string) : option string :=
  match s with
  | "" => if Ascii.eqb prev "_" then None else Some ""
  | String a s' =>
      if Ascii.eqb a "_"
      then if is_digit prev then remove_underscores a s' else None
      else if Ascii.eqb prev "_" && negb (is_digit a) then None
           else option_map (String a) (remove_underscores a s')
  end.

(** The leading run of decimal digits and what follows it. *)
Fixpoint span_digits (s : string) : string * string :=
  match s with
  | String a s' =>
      if is_digit a
      then let '(d, r) := span_digits s' in (String a d, r)
      else ("", s)
  | "" => ("", "")
  end.

Fixpoint digits_value (acc : Z) (s : string) : Z :=
  match s with
  | "" => acc
  | String a s' => digits_value (10 * acc + (Z.of_nat (nat_of_ascii a) - 48)) s'
  end.

(** An optional sign: is it a minus, and the rest. *)
Definition take_sign (s : string) : bool * string :=
  match s with
  | String "-" s' => (true, s')
  | String "+" s' => (false, s')
  | _ => (false, s)
  end.

(** The exponent part: empty, or [e]/[E], an optional sign and digits. *)
Definition parse_exponent (s : string) : option Z :=
  match s with
  | "" => Some 0%Z
  | String a s' =>
      if Ascii.eqb a "e" || Ascii.eqb a "E"
      then let '(neg, t) := take_sign s' in
           match span_digits t with
           | (String _ _ as ds, "") =>
               Some (if neg then - digits_value 0 ds else digits_value 0 ds)%Z
           | _ => None
           end
      else None
  end.

(** An unsigned decimal literal: digits, an optional fraction, an optional
    exponent, with at least one digit before the exponent. *)
Definition parse_decimal (neg : bool) (s : string) : option float :=
  let '(ip, r1) := span_digits s in
  let '(fp, r2) :=
    match r1 with
    | String "." t => span_digits t
    | _ => ("", r1)
    end in
  match ip ++ fp with
  | "" => None
  | ds =>
      match parse_exponent r2 with
      | Some e =>
          Some (float_of_decimal neg (digits_value 0 ds)
                  (e - Z.of_nat (String.length fp)))
      | None => None
      end
  end.

(** The numeric literal grammar of [float(s)] after stripping. *)
Definition parse_float (s : string) : option float :=
  let '(neg, body) := take_sign s in
  let l := lower body in
  if String.eqb l "inf" || String.eqb l "infinity" then Some (S754_infinity neg)
  else if String.eqb l "nan" then Some S754_nan
  else parse_decimal neg body.

Definition float_of_str (s : string) : option float :=
  match remove_underscores "000" s with
  | Some t => parse_float (rstrip (lstrip t))
  | None => None
  end.

(** [repr(x)], which is also [str(x)] and what an f-string writes: the
    shortest decimal digit string that reads back as [x], in fixed notation
    when the decimal point position is in -3..16 and in exponent notation
    otherwise. *)
Section Repr.

(** The value is [num / den], both positive. *)
Variables (x : float) (neg : bool) (num den : Z).

(** [10^j <= num / den]. *)
Definition pow10_le (j : Z) : bool :=
  if (0 <=? j)%Z then (10 ^ j * den <=? num)%Z
  else (den <=? num * 10 ^ (- j))%Z.

(** The least [j] from [j0] on with [num / den < 10^j]. *)
Fixpoint decimal_point (fuel : nat) (j0 : Z) : Z :=
  match fuel with
  | O => j0
  | S f => if pow10_le j0 then decimal_point f (j0 + 1) else j0
  end.

(** The [n]-digit decimals just below and just above the value, kept when
    they read back as [x]; of two that do, the nearer one, the even one
    on a tie.  The result is the integer [c] of [c * 10^(k - n)]. *)
Definition digits_at (k n : Z) : option Z :=
  let p := (n - k)%Z in
  let '(N, D) := if (0 <=? p)%Z then (num * 10 ^ p, den)%Z
                 else (num, den * 10 ^ (- p))%Z in
  let lo := (N / D)%Z in
  let r := (N mod D)%Z in
  let hi := (lo + 1)%Z in
  let back c := float_same (float_of_decimal neg c (k - n)) x in
  match back lo, back hi with
  | true, true =>
      Some match (2 * r ?= D)%Z with
           | Lt => lo
           | Gt => hi
           | Eq => if Z.even lo then lo else hi
           end
  | true, false => Some lo
  | false, true => Some hi
  | false, false => None
  end.

(** The first length from [n] on that has such a decimal. *)
Fixpoint shortest_digits (fuel : nat) (k n : Z) : Z * Z :=
  match fuel with
  | O => (0%Z, 0%Z)
  | S f =>
      match digits_at k n with
      | Some c => (c, (k - n)%Z)
      | None => shortest_digits f k (n + 1)
      end
  end.

End Repr.

Fixpoint zeros (n : nat) : string :=
  match n with
  | O => ""
  | S k => String "0" (zeros k)
  end.

(** Drop the trailing zeros of a digit string. *)
Fixpoint strip_zeros (s : string) : string :=
  match s with
  | "" => ""
  | String a s' =>
      match strip_zeros s' with
      | "" => if Ascii.eqb a "0" then "" else String a ""
      | t => String a t
      end
  end.

(** [s[:i]]. *)
Fixpoint take (i : nat) (s : string) : string :=
  match i, s with
  | O, _ => ""
  | S k, "" => ""
  | S k, String a s' => String a (take k s')
  end.

(** Lay out the digits [ds] of [0.ds * 10^decpt]. *)
Definition format_digits (ds : string) (decpt : Z) : string :=
  let n := Z.of_nat (String.length ds) in
  if (decpt <=? -4)%Z || (16 <? decpt)%Z then
    let e := (decpt - 1)%Z in
    let ea := NilZero.string_of_int (Z.to_int (Z.abs e)) in
    take 1 ds
    ++ (if (1 <? n)%Z then "." ++ drop 1 ds else "")
    ++ "e" ++ (if (e <? 0)%Z then "-" else "+")
    ++ (if (Z.abs e <? 10)%Z then "0" else "") ++ ea
  else if (decpt <=? 0)%Z then
    "0." ++ zeros (Z.to_nat (- decpt)) ++ ds
  else if (decpt <? n)%Z then
    take (Z.to_nat decpt) ds ++ "." ++ drop (Z.to_nat decpt) ds
  else
    ds ++ zeros (Z.to_nat (decpt - n)) ++ ".0".

Definition repr_float (x : float) : string :=
  match x with
  | S754_nan => "nan"
  | S754_infinity s => if s then "-inf" else "inf"
  | S754_zero s => if s then "-0.0" else "0.0"
  | S754_finite s m e =>
      let '(num, den) :=
        if (0 <=? e)%Z then (Zpos m * 2 ^ e, 1)%Z else (Zpos m, 2 ^ (- e))%Z in
      let b := (Zpos (digits2_pos m) + e)%Z in
      let k := decimal_point num den 8 ((b - 1) * 30103 / 100000 - 1) in
      let '(c, e10) := shortest_digits x s num den 17 k 1 in
      let all := NilZero.string_of_int (Z.to_int c) in
      (if s then "-" else "")
      ++ format_digits (strip_zeros all) (Z.of_nat (String.length all) + e10)
  end.

(** [repr(s)] of a string, as the message of [float]'s [ValueError] shows
    it: single quotes unless the text has a single and no double quote;
    backslash, the chosen quote and control characters escaped. *)
Fixpoint contains_char (c : ascii) (s : string) : bool :=
  match s with
  | "" => false
  | String a s' => Ascii.eqb a c || contains_char c s'
  end.

Definition hex_digit (n : nat) : ascii :=
  if (n <? 10)%nat then ascii_of_nat (48 + n) else ascii_of_nat (87 + n).

Definition escape_char (quote a : ascii) : string :=
  let n := nat_of_ascii a in
  if Ascii.eqb a quote || Ascii.eqb a "\" then String "\" (String a "")
  else if (n =? 9)%nat then "\t"
  else if (n =? 10)%nat then "\n"
  else if (n =? 13)%nat then "\r"
  else if (n <? 32)%nat || (n =? 127)%nat
       then "\x" ++ String (hex_digit (n / 16)) (String (hex_digit (n mod 16)) "")
  else String a "".

Fixpoint escape_all (quote : ascii) (s : string) : string :=
  match s with
  | "" => ""
  | String a s' => escape_char quote a ++ escape_all quote s'
  end.

Definition double_quote : ascii := "034".

Definition repr_str (s : string) : string :=
  let quote : ascii :=
    if contains_char "'" s && negb (contains_char double_quote s)
    then double_quote else "'"%char in
  String quote (escape_all quote s) ++ String quote "".

(** [float(s)]. *)
Definition float_ (s : string) : result float :=
  match float_of_str s with
  | Some x => Ok x
  | None => Raise (ValueError ("could not convert string to float: " ++ repr_str s))
  end.

(** *** Lists *)

(** [l.sort(key=key)]: a stable sort; an element goes in front of the
    first one whose key is not smaller than its own. *)
Section Sort.
Context {A K : Type}.
Variables (lt : K -> K -> bool) (key : A -> K).

Fixpoint insert_sorted (x : A) (l : list A) : list A :=
  match l with
  | [] => [x]
  | y :: t =>
      if lt (key y) (key x) then y :: insert_sorted x t else x :: y :: t
  end.

Definition sort (l : list A) : list A := fold_right insert_sorted [] l.
End Sort.

End Py.

(** ** Effects of a run *)

(** What a tool does to the outside world, in order. *)
Inductive event : Type :=
| Print (text : string)
| Subprocess (argv : list string)
| Makedirs (path : string).

(** How a statement ends: normally, with an exception, or with [sys.exit]
    (a [SystemExit], which [except Exception] does not catch). *)
Inductive outcome (A : Type) : Type :=
| Return (a : A)
| Raised (e : exn)
| Exited (code : Z).
Arguments Return {A} a.
Arguments Raised {A} e.
Arguments Exited {A} code.

Module Proc.

Definition t (A : Type) : Type := list event * outcome A.

Definition ret {A} (a : A) : t A := ([], Return a).

Definition bind {A B} (m : t A) (k : A -> t B) : t B :=
  match m with
  | (tr, Return a) => let '(tr', o) := k a in (tr ++ tr', o)%list
  | (tr, Raised e) => (tr, Raised e)
  | (tr, Exited c) => (tr, Exited c)
  end.

Definition emit (e : event) : t unit := ([e], Return tt).
Definition print (text : string) : t unit := emit (Print text).
Definition raise {A} (e : exn) : t A := ([], Raised e).
Definition sys_exit {A} (code : Z) : t A := ([], Exited code).

Definition lift {A} (r : result A) : t A :=
  match r with
  | Ok a => ret a
  | Raise e => raise e
  end.

(** [try: m  except Exception as e: h e]. *)
Definition try_except {A} (m : t A) (h : exn -> t A) : t A :=
  match m with
  | (tr, Raised e) => let '(tr', o) := h e in (tr ++ tr', o)%list
  | other => other
  end.

Definition trace {A} (m : t A) : list event := fst m.
Definition final {A} (m : t A) : outcome A := snd m.

End Proc.

Declare Scope proc_scope.
Delimit Scope proc_scope with proc.
Notation "x <- m ;; k" := (Proc.bind m (fun x => k))
  (at level 61, m at next level, right associativity) : proc_scope.
Notation "m ;; k" := (Proc.bind m (fun _ => k))
  (at level 61, right associativity) : proc_scope.
Notation "' pat <- m ;; k" :=
  (Proc.bind m (fun x => match x with pat => k end))
  (at level 61, pat pattern, m at next level, right associativity)
  : proc_scope.

(** An event that starts a child process. *)
Definition is_subprocess (e : event) : bool :=
  match e with
  | Subprocess _ => true
  | _ => false
  end.

Definition nl : string := String "010" "".

(** A [pathlib.Path]: its text and its final component.  How a string
    splits into components depends on the platform, so the constructor is a
    parameter of the code that calls it. *)
Record Path : Type := { path_str : string; name : string }.

(** [p.suffix] and [p.stem]: the name is cut at its last dot unless that dot
    is the first or the last character. *)
Definition suffix_start (n : string) : option nat :=
  match Py.rfind "." n with
  | Some i =>
      if (0 <? i)%nat && (i <? String.length n - 1)%nat then Some i else None
  | None => None
  end.

Definition suffix (p : Path) : string :=
  match suffix_start (name p) with
  | Some i => Py.drop i (name p)
  | None => ""
  end.

Definition stem (p : Path) : string :=
  match suffix_start (name p) with
  | Some i => Py.take i (name p)
  | None => name p
  end.

(** ** overlay_image.py *)

Module OverlayImage.

Local Open Scope result_scope.

(** [get_position_filter]: the dict of the six presets, read with
    [dict.get] and the [top-right] entry as the default. *)
Definition position_map (offset_x offset_y : Z) : list (string * string) :=
  let x := Py.str_int offset_x in
  let y := Py.str_int offset_y in
  [ ("top-left", x ++ ":" ++ y);
    ("top-right", "main_w-overlay_w-" ++ x ++ ":" ++ y);
    ("bottom-left", x ++ ":main_h-overlay_h-" ++ y);
    ("bottom-right", "main_w-overlay_w-" ++ x ++ ":main_h-overlay_h-" ++ y);
    ("center", "(main_w-overlay_w)/2:(main_h-overlay_h)/2");
    ("custom", x ++ ":" ++ y) ].

Fixpoint dict_get (d : list (string * string)) (k : string) : option string :=
  match d with
  | [] => None
  | (k', v) :: d' => if String.eqb k k' then Some v else dict_get d' k
  end.

Definition get_position_filter (position : string) (offset_x offset_y : Z)
  : string :=
  let m := position_map offset_x offset_y in
  match dict_get m position with
  | Some v => v
  | None => match dict_get m "top-right" with Some v => v | None => "" end
  end.

(** [parse_time_to_seconds]: three components, two components, and an
    [else] that reads [parts[0]] whatever the number of components
    ([split] never returns an empty list). *)
Definition parse_time_to_seconds (time_str : string) : result Py.float :=
  match Py.split ":" time_str with
  | [h; m; s] =>
      fh <- Py.float_ h ;;
      fm <- Py.float_ m ;;
      fs <- Py.float_ s ;;
      Ok (Py.fadd (Py.fadd (Py.fmul fh (Py.float_of_int 3600))
                           (Py.fmul fm (Py.float_of_int 60))) fs)
  | [m; s] =>
      fm <- Py.float_ m ;;
      fs <- Py.float_ s ;;
      Ok (Py.fadd (Py.fmul fm (Py.float_of_int 60)) fs)
  | parts => Py.float_ (List.hd "" parts)
  end.

(** The filter graph of [overlay_image_on_video], statement by statement.
    Each step returns what it appends to [filter_parts]. *)

(** [if scale: ...]: the scale segment, if any, and [overlay_input]. *)
Definition scale_step (scale : option string) : result (list string * string) :=
  match scale with
  | Some (String _ _ as sc) =>
      scale_filter <-
        (if Py.endswith sc "%"
         then x <- Py.float_ (Py.drop_last sc) ;;
              let scale_factor := Py.repr_float (Py.fdiv x (Py.float_of_int 100)) in
              Ok ("scale=iw*" ++ scale_factor ++ ":ih*" ++ scale_factor)
         else Ok ("scale=" ++ sc)) ;;
      Ok (["[1:v]" ++ scale_filter ++ "[scaled]"], "[scaled]")
  | _ => Ok ([], "[1:v]")
  end.

(** [if opacity < 1.0: ...]: the opacity segment, if any, and the new
    [overlay_input]. *)
Definition opacity_step (scale : option string) (opacity : Py.float)
    (overlay_input : string) : list string * string :=
  if Py.flt opacity (Py.float_of_int 1) then
    if Py.truthy scale
    then (["[scaled]format=rgba,colorchannelmixer=aa="
             ++ Py.repr_float opacity ++ "[transparent]"], "[transparent]")
    else (["[1:v]format=rgba,colorchannelmixer=aa="
             ++ Py.repr_float opacity ++ "[transparent]"], "[transparent]")
  else ([], overlay_input).

(** The two [if]s that fill [overlay_options]. *)
Definition overlay_options (start_time duration : option string)
  : result (list string) :=
  opts1 <-
    match start_time with
    | Some (String _ _ as st) =>
        t <- parse_time_to_seconds st ;;
        Ok ["enable='gte(t," ++ Py.repr_float t ++ ")'"]
    | _ => Ok []
    end ;;
  match duration, start_time with
  | Some (String _ _ as du), Some (String _ _ as st) =>
      t0 <- parse_time_to_seconds st ;;
      d <- parse_time_to_seconds du ;;
      let end_time := Py.fadd t0 d in
      t1 <- parse_time_to_seconds st ;;
      Ok (app opts1 ["enable='between(t," ++ Py.repr_float t1 ++ ","
                       ++ Py.repr_float end_time ++ ")'"])
  | _, _ => Ok opts1
  end.

(** The final overlay segment. *)
Definition overlay_filter (overlay_input position_filter : string)
    (options : list string) : string :=
  let base := "[0:v]" ++ overlay_input ++ "overlay=" ++ position_filter in
  match options with
  | [] => base
  | _ => base ++ ":" ++ Py.join ":" options
  end.

Definition filter_parts (position : string) (scale : option string)
    (opacity : Py.float) (offset_x offset_y : Z)
    (start_time duration : option string) : result (list string) :=
  '(parts1, input1) <- scale_step scale ;;
  let '(parts2, input2) := opacity_step scale opacity input1 in
  let position_filter := get_position_filter position offset_x offset_y in
  options <- overlay_options start_time duration ;;
  Ok (parts1 ++ parts2 ++ [overlay_filter input2 position_filter options])%list.

Definition filter_complex (position : string) (scale : option string)
    (opacity : Py.float) (offset_x offset_y : Z)
    (start_time duration : option string) : result string :=
  parts <- filter_parts position scale opacity offset_x offset_y
             start_time duration ;;
  Ok (Py.join ";" parts).

(** The arguments [argparse] hands to [main]. *)
Record Args : Type := {
  video : string;
  image : string;
  output : option string;
  position : string;
  scale : option string;
  opacity : Py.float;
  offset_x : Z;
  offset_y : Z;
  start_time : option string;
  duration : option string
}.

Definition video_extensions : list string :=
  [".mp4"; ".avi"; ".mov"; ".mkv"; ".webm"; ".flv"; ".wmv"; ".m4v"].

Definition image_extensions : list string :=
  [".png"; ".jpg"; ".jpeg"; ".gif"; ".bmp"; ".tiff"; ".webp"].

Definition member (s : string) (l : list string) : bool :=
  existsb (String.eqb s) l.

Section World.

(** The machine the tool runs on: [pathlib.Path], [Path.exists],
    [subprocess.run] (exit status and captured standard error, or the
    exception it raises), [os.path.abspath], [os.path.dirname] and
    [os.makedirs]. *)
Variable Path_of : string -> Path.
Variable exists_ : Path -> bool.
Variable subprocess_run : list string -> result (Z * string).
Variable abspath : string -> string.
Variable dirname : string -> string.
Variable makedirs : string -> result unit.

Local Open Scope proc_scope.

(** [check_ffmpeg]: with [check=True] a non-zero status raises
    [CalledProcessError]; that and [FileNotFoundError] give [False], any
    other exception goes through. *)
Definition check_ffmpeg : Proc.t bool :=
  let argv := ["ffmpeg"; "-version"] in
  Proc.emit (Subprocess argv) ;;
  match subprocess_run argv with
  | Ok (0%Z, _) => Proc.ret true
  | Ok _ => Proc.ret false
  | Raise (FileNotFoundError _) => Proc.ret false
  | Raise e => Proc.raise e
  end.

Definition validate_files (video_path image_path : string)
  : result (Path * Path) :=
  let video_file := Path_of video_path in
  let image_file := Path_of image_path in
  if negb (exists_ video_file) then
    Raise (FileNotFoundError ("Video file does not exist: " ++ video_path))
  else if negb (exists_ image_file) then
    Raise (FileNotFoundError ("Image file does not exist: " ++ image_path))
  else if negb (member (Py.lower (suffix video_file)) video_extensions) then
    Raise (ValueError ("Unsupported video format: " ++ suffix video_file))
  else if negb (member (Py.lower (suffix image_file)) image_extensions) then
    Raise (ValueError ("Unsupported image format: " ++ suffix image_file))
  else Ok (video_file, image_file).

Definition overlay_image_on_video (video_file image_file : Path)
    (output_path position : string) (scale : option string)
    (opacity : Py.float) (offset_x offset_y : Z)
    (start_time duration : option string) : Proc.t bool :=
  Proc.print ("Overlaying image: " ++ name image_file) ;;
  Proc.print ("On video: " ++ name video_file) ;;
  Proc.print ("Position: " ++ position) ;;
  Proc.print ("Output: " ++ output_path) ;;
  fc <- Proc.lift (filter_complex position scale opacity offset_x offset_y
                     start_time duration) ;;
  let cmd := ["ffmpeg"; "-i"; path_str video_file; "-i"; path_str image_file;
              "-filter_complex"; fc; "-c:a"; "copy"; "-y"; output_path] in
  Proc.print (nl ++ "Running ffmpeg overlay...") ;;
  Proc.print ("Command: " ++ Py.join " " cmd) ;;
  Proc.emit (Subprocess cmd) ;;
  match subprocess_run cmd with
  | Ok (0%Z, _) =>
      Proc.print (nl ++ "✅ Successfully created video with overlay: "
                     ++ output_path) ;;
      Proc.ret true
  | Ok (_, stderr) =>
      Proc.print (nl ++ "❌ Error during overlay:") ;;
      Proc.print ("Error output: " ++ stderr) ;;
      Proc.ret false
  | Raise e =>
      Proc.print (nl ++ "❌ Error during overlay: " ++ exn_str e) ;;
      Proc.ret false
  end.

(** [main], from the parsed arguments on. *)
Definition main (args : Args) : Proc.t unit :=
  if negb (Py.fle (Py.float_of_int 0) (opacity args)
           && Py.fle (opacity args) (Py.float_of_int 1)) then
    Proc.print "❌ Error: Opacity must be between 0.0 and 1.0" ;;
    Proc.sys_exit 1
  else
    ok <- check_ffmpeg ;;
    if negb ok then
      Proc.print "❌ Error: ffmpeg is not installed or not available in system PATH" ;;
      Proc.print "Please install ffmpeg and ensure it's accessible from command line" ;;
      Proc.sys_exit 1
    else
      Proc.try_except
        ('(video_file, image_file) <-
            Proc.lift (validate_files (video args) (image args)) ;;
         let out :=
           match output args with
           | Some o => o
           | None => "output/" ++ stem video_file ++ "_overlay"
                       ++ suffix video_file
           end in
         let output_path := abspath out in
         let output_dir := dirname output_path in
         Proc.emit (Makedirs output_dir) ;;
         Proc.lift (makedirs output_dir) ;;
         success <- overlay_image_on_video video_file image_file output_path
                      (position args) (scale args) (opacity args)
                      (offset_x args) (offset_y args)
                      (start_time args) (duration args) ;;
         if success then Proc.sys_exit 0 else Proc.sys_exit 1)
        (fun e =>
           Proc.print ("❌ Error: " ++ exn_str e) ;;
           Proc.sys_exit 1).

End World.

End OverlayImage.

(** ** concatenate_videos.py *)

Module ConcatenateVideos.

(** One entry of a directory listing: the path [iterdir] yields for it,
    whether [is_file] holds, and the two time stamps of its [stat]. *)
Record dirent : Type := {
  d_path : Path;
  d_is_file : bool;
  st_ctime : Py.float;
  st_mtime : Py.float
}.

(** What a path names when it names something: a directory with its
    entries in enumeration order, or anything else. *)
Inductive node : Type :=
| Directory (entries : list dirent)
| NotDirectory.

(** The test of the discovery loop. *)
Definition is_mp4 (e : dirent) : bool :=
  d_is_file e && String.eqb (Py.lower (suffix (d_path e))) ".mp4".

Section World.

(** [pathlib.Path] and the file system: [None] for a path that does not
    exist. *)
Variable Path_of : string -> Path.
Variable lookup : Path -> option node.

Local Open Scope result_scope.

Definition find_mp4_files (folder_path sort_method : string)
  : result (list Path) :=
  let folder := Path_of folder_path in
  match lookup folder with
  | None =>
      Raise (FileNotFoundError ("Folder does not exist: " ++ folder_path))
  | Some NotDirectory =>
      Raise (NotADirectoryError ("Path is not a directory: " ++ folder_path))
  | Some (Directory entries) =>
      let mp4_files := filter is_mp4 entries in
      match mp4_files with
      | [] => Raise (ValueError ("No MP4 files found in folder: " ++ folder_path))
      | _ =>
          sorted <-
            (if String.eqb sort_method "alphabetical" then
               Ok (Py.sort String.ltb (fun x => Py.lower (name (d_path x)))
                     mp4_files)
             else if String.eqb sort_method "date_created" then
               Ok (Py.sort Py.flt st_ctime mp4_files)
             else if String.eqb sort_method "date_modified" then
               Ok (Py.sort Py.flt st_mtime mp4_files)
             else Raise (ValueError ("Invalid sort method: " ++ sort_method))) ;;
          Ok (map d_path sorted)
      end
  end.

(** [os.path.join] and [str(p.resolve())]. *)
Variable path_join : string -> string -> string.
Variable resolve : Path -> string.

(** One turn of the loop of [create_concat_file]: the text so far and the
    [f.write] for [mp4_file]. *)
Definition write_entry (written : string) (mp4_file : Path) : string :=
  let abs_path := Py.replace "\" "/" (resolve mp4_file) in
  let escaped_path := Py.replace "'" "\'" abs_path in
  written ++ ("file '" ++ escaped_path ++ "'" ++ nl).

(** [create_concat_file]: the path of the list file and its content. *)
Definition create_concat_file (mp4_files : list Path) (temp_dir : string)
  : string * string :=
  let concat_file_path := path_join temp_dir "concat_list.txt" in
  (concat_file_path, fold_left write_entry mp4_files "").

End World.

(** The arguments [argparse] hands to [main]. *)
Record Args : Type := {
  folder : string;
  output : option string;
  sort : string
}.

Section Tool.

(** The machine the tool runs on.  Besides [pathlib.Path] and the file
    system of [find_mp4_files]: [subprocess.run], the [os.path] functions,
    [os.makedirs], the directory [tempfile.TemporaryDirectory] creates, and
    the outcome of opening the list file and writing its text.  The
    temporary directory is private to a run: it shows in the trace only
    through the command line that names the list file, and its removal at
    the end of the [with] block is taken to succeed. *)
Variable Path_of : string -> Path.
Variable lookup : Path -> option node.
Variable path_join : string -> string -> string.
Variable resolve : Path -> string.
Variable subprocess_run : list string -> result (Z * string).
Variable abspath : string -> string.
Variable basename : string -> string.
Variable dirname : string -> string.
Variable makedirs : string -> result unit.
Variable mkdtemp : result string.
Variable write_file : string -> string -> result unit.

Local Open Scope proc_scope.

(** [check_ffmpeg], the same function as in the overlay tool. *)
Definition check_ffmpeg : Proc.t bool :=
  let argv := ["ffmpeg"; "-version"] in
  Proc.emit (Subprocess argv) ;;
  match subprocess_run argv with
  | Ok (0%Z, _) => Proc.ret true
  | Ok _ => Proc.ret false
  | Raise (FileNotFoundError _) => Proc.ret false
  | Raise e => Proc.raise e
  end.

(** The loop that prints the numbered file names, from number [i] on. *)
Fixpoint print_names (i : Z) (mp4_files : list Path) : Proc.t unit :=
  match mp4_files with
  | [] => Proc.ret tt
  | file_path :: rest =>
      Proc.print ("  " ++ Py.str_int i ++ ". " ++ name file_path) ;;
      print_names (i + 1) rest
  end.

(** The command line of the concat demuxer. *)
Definition concat_command (concat_file_path output_path : string)
  : list string :=
  ["ffmpeg"; "-f"; "concat"; "-safe"; "0"; "-i"; concat_file_path;
   "-c"; "copy"; "-y"; output_path].

Definition concatenate_videos (mp4_files : list Path) (output_path : string)
  : Proc.t bool :=
  Proc.print ("Found " ++ Py.str_int (Z.of_nat (List.length mp4_files))
                ++ " MP4 files to concatenate:") ;;
  print_names 1 mp4_files ;;
  Proc.print (nl ++ "Concatenating videos into: " ++ output_path) ;;
  temp_dir <- Proc.lift mkdtemp ;;
  Proc.try_except
    (let '(concat_file_path, content) :=
       create_concat_file path_join resolve mp4_files temp_dir in
     Proc.lift (write_file concat_file_path content) ;;
     let cmd := concat_command concat_file_path output_path in
     Proc.print (nl ++ "Running ffmpeg concatenation...") ;;
     Proc.print ("Command: " ++ Py.join " " cmd) ;;
     Proc.emit (Subprocess cmd) ;;
     r <- Proc.lift (subprocess_run cmd) ;;
     match r with
     | (0%Z, _) =>
         Proc.print (nl ++ "✅ Successfully concatenated videos to: "
                        ++ output_path) ;;
         Proc.ret true
     | (_, stderr) =>
         Proc.print (nl ++ "❌ Error during concatenation:") ;;
         Proc.print ("Error output: " ++ stderr) ;;
         Proc.ret false
     end)
    (fun e =>
       Proc.print (nl ++ "❌ Error during concatenation: " ++ exn_str e) ;;
       Proc.ret false).

(** [main], from the parsed arguments on. *)
Definition main (args : Args) : Proc.t unit :=
  ok <- check_ffmpeg ;;
  if negb ok then
    Proc.print "❌ Error: ffmpeg is not installed or not available in system PATH" ;;
    Proc.print "Please install ffmpeg and ensure it's accessible from command line" ;;
    Proc.sys_exit 1
  else
    Proc.try_except
      (mp4_files <-
         Proc.lift (find_mp4_files Path_of lookup (folder args) (sort args)) ;;
       let out :=
         match output args with
         | Some o => o
         | None => "output/" ++ basename (abspath (folder args)) ++ ".mp4"
         end in
       let output_path := abspath out in
       let output_dir := dirname output_path in
       Proc.emit (Makedirs output_dir) ;;
       Proc.lift (makedirs output_dir) ;;
       success <- concatenate_videos mp4_files output_path ;;
       if success then Proc.sys_exit 0 else Proc.sys_exit 1)
      (fun e =>
         Proc.print ("❌ Error: " ++ exn_str e) ;;
         Proc.sys_exit 1).

End Tool.

End ConcatenateVideos.

(** ** Definitions the statements below use *)

(** The time formats as the specification words them: exactly three, two
    or one component; any other number of components is a format error. *)
Definition parse_time_reference (time_str : string) : result Py.float :=
  match Py.split ":" time_str with
  | [h; m; s] =>
      (fh <- Py.float_ h ;;
       fm <- Py.float_ m ;;
       fs <- Py.float_ s ;;
       Ok (Py.fadd (Py.fadd (Py.fmul fh (Py.float_of_int 3600))
                            (Py.fmul fm (Py.float_of_int 60))) fs))%result
  | [m; s] =>
      (fm <- Py.float_ m ;;
       fs <- Py.float_ s ;;
       Ok (Py.fadd (Py.fmul fm (Py.float_of_int 60)) fs))%result
  | [s] => Py.float_ s
  | _ => Raise (ValueError ("invalid time format: " ++ Py.repr_str time_str))
  end.

(** How many times [pat] occurs in [s], overlaps included. *)
Fixpoint count_occurrences (pat s : string) : nat :=
  match s with
  | "" => 0
  | String _ s' =>
      (if String.prefix pat s then 1 else 0) + count_occurrences pat s'
  end.

(** A path as the concat list quotes it, character by character: a
    backslash becomes a slash, a single quote gets a backslash in front. *)
Fixpoint quoted_path (s : string) : string :=
  match s with
  | "" => ""
  | String a s' =>
      if Ascii.eqb a "\" then String "/" (quoted_path s')
      else if Ascii.eqb a "'" then String "\" (String "'" (quoted_path s'))
      else String a (quoted_path s')
  end.

(** The floats of the literals [0.0], [1.0], [0.7], [10.0], [40.0]. *)
Definition float_literal (s : string) : Py.float :=
  match Py.float_of_str s with
  | Some x => x
  | None => S754_nan
  end.

(** Inside the closed interval from 0.0 to 1.0; a NaN is not. *)
Definition in_unit_interval (x : Py.float) : bool :=
  Py.fle (float_literal "0.0") x && Py.fle x (float_literal "1.0").

(** The three sort keys of the file discoverer. *)
Definition sort_methods : list string :=
  ["alphabetical"; "date_created"; "date_modified"].

(** The six position presets. *)
Definition position_presets : list string :=
  ["top-left"; "top-right"; "bottom-left"; "bottom-right"; "center"; "custom"].

(** The entry written for one file, and the line it makes. *)
Definition concat_entry (resolve : Path -> string) (f : Path) : string :=
  "file '" ++ quoted_path (resolve f) ++ "'".

Definition concat_line (resolve : Path -> string) (f : Path) : string :=
  concat_entry resolve f ++ nl.

(** A small file system for the examples: [videos] holds a text file, an
    upper-case MP4 and a directory named like an MP4; [notes] holds a text
    file and a directory named like an MP4; [README] is a file. *)
Definition example_path (s : string) : Path := {| path_str := s; name := s |}.

Definition example_entry (n : string) (is_file : bool) (t : string)
  : ConcatenateVideos.dirent :=
  {| ConcatenateVideos.d_path := example_path n;
     ConcatenateVideos.d_is_file := is_file;
     ConcatenateVideos.st_ctime := float_literal t;
     ConcatenateVideos.st_mtime := float_literal t |}.

Definition example_lookup (p : Path) : option ConcatenateVideos.node :=
  if String.eqb (path_str p) "videos" then
    Some (ConcatenateVideos.Directory
            [example_entry "b.txt" true "3"; example_entry "A.MP4" true "2";
             example_entry "dir.mp4" false "1"])
  else if String.eqb (path_str p) "notes" then
    Some (ConcatenateVideos.Directory
            [example_entry "todo.txt" true "1"; example_entry "old.mp4" false "2"])
  else if String.eqb (path_str p) "README" then
    Some ConcatenateVideos.NotDirectory
  else None.

(** The number of child processes a trace starts. *)
Definition count_subprocess (tr : list event) : nat :=
  List.length (filter is_subprocess tr).

(** The probe both tools run first. *)
Definition probe_command : list string := ["ffmpeg"; "-version"].

(** The output name the overlay tool uses: the one given, or
    [output/<stem>_overlay<suffix>] built from the video's name. *)
Definition overlay_output (args : OverlayImage.Args) (video_file : Path)
  : string :=
  match OverlayImage.output args with
  | Some o => o
  | None => "output/" ++ stem video_file ++ "_overlay" ++ suffix video_file
  end.

(** The command line of the overlay. *)
Definition overlay_command (video_file image_file : Path)
    (filter_complex output_path : string) : list string :=
  ["ffmpeg"; "-i"; path_str video_file; "-i"; path_str image_file;
   "-filter_complex"; filter_complex; "-c:a"; "copy"; "-y"; output_path].

(** The graph [main] asks for. *)
Definition overlay_graph (args : OverlayImage.Args) : result string :=
  OverlayImage.filter_complex (OverlayImage.position args)
    (OverlayImage.scale args) (OverlayImage.opacity args)
    (OverlayImage.offset_x args) (OverlayImage.offset_y args)
    (OverlayImage.start_time args) (OverlayImage.duration args).

(** The output name the concatenation tool uses. *)
Definition concat_output (abspath basename : string -> string)
    (args : ConcatenateVideos.Args) : string :=
  match ConcatenateVideos.output args with
  | Some o => o
  | None =>
      "output/" ++ basename (abspath (ConcatenateVideos.folder args)) ++ ".mp4"
  end.

(** A quoted path is well formed when each backslash stands right before a
    single quote and each single quote right after a backslash. *)
Fixpoint escaped_ok (s : string) : bool :=
  match s with
  | "" => true
  | String a s' =>
      if Ascii.eqb a "\" then
        match s' with
        | String b s'' => Ascii.eqb b "'" && escaped_ok s''
        | "" => false
        end
      else negb (Ascii.eqb a "'") && escaped_ok s'
  end.

(** The three sort keys, and what it is for a list of entries to be in the
    order of a key: no entry has a key below the key of the one before. *)
Definition name_key (e : ConcatenateVideos.dirent) : string :=
  Py.lower (name (ConcatenateVideos.d_path e)).

Definition ordered_by {K : Type} (lt : K -> K -> bool)
    (key : ConcatenateVideos.dirent -> K)
    (l : list ConcatenateVideos.dirent) : Prop :=
  Sorted (fun a b => lt (key b) (key a) = false) l.

(** Example machines and arguments: [ffmpeg] present and succeeding,
    [ffmpeg] absent, and an [ffmpeg] whose commands fail with status 1
    while the probe succeeds. *)
Definition run_ok (argv : list string) : result (Z * string) := Ok (0%Z, "").

Definition run_absent (argv : list string) : result (Z * string) :=
  Raise (FileNotFoundError "No such file or directory: 'ffmpeg'").

Definition run_failing (argv : list string) : result (Z * string) :=
  match argv with
  | [_; "-version"] => Ok (0%Z, "")
  | _ => Ok (1%Z, "Invalid data found when processing input")
  end.

Definition example_abspath (s : string) : string := "/work/" ++ s.
Definition example_dirname (s : string) : string := "/work/output".
Definition example_basename (s : string) : string := "videos".
Definition example_makedirs (s : string) : result unit := Ok tt.
Definition example_write (path content : string) : result unit := Ok tt.
Definition example_join (d n : string) : string := d ++ "/" ++ n.

Definition example_overlay_args (start : option string) : OverlayImage.Args :=
  {| OverlayImage.video := "clip.mp4";
     OverlayImage.image := "logo.png";
     OverlayImage.output := None;
     OverlayImage.position := "top-right";
     OverlayImage.scale := None;
     OverlayImage.opacity := float_literal "1.0";
     OverlayImage.offset_x := 10;
     OverlayImage.offset_y := 10;
     OverlayImage.start_time := start;
     OverlayImage.duration := None |}.

Definition example_concat_args (folder : string) : ConcatenateVideos.Args :=
  {| ConcatenateVideos.folder := folder;
     ConcatenateVideos.output := None;
     ConcatenateVideos.sort := "alphabetical" |}.

(** A folder of three clips, in the order the file system lists them. *)
Definition example_clips : list ConcatenateVideos.dirent :=
  [example_entry "b.mp4" true "20"; example_entry "A.mp4" true "30";
   example_entry "c.MP4" true "10"].

Definition clips_lookup (p : Path) : option ConcatenateVideos.node :=
  if String.eqb (path_str p) "clips"
  then Some (ConcatenateVideos.Directory example_clips)
  else None.


(** A text without its backslashes. *)
Fixpoint drop_backslashes (s : string) : string :=
  match s with
  | "" => ""
  | String a s' =>
      if Ascii.eqb a "\" then drop_backslashes s'
      else String a (drop_backslashes s')
  end.

(** Unfold the monad of effects, and nothing else, in the goal. *)
Ltac proc_eval :=
  cbv beta iota zeta delta
    [Proc.bind Proc.try_except Proc.emit Proc.print Proc.sys_exit Proc.ret
     Proc.raise Proc.lift Proc.final Proc.trace fst snd app negb
     count_subprocess filter is_subprocess List.length].

(** Unfold the monad around a trace that is not known in full. *)
Ltac concat_eval :=
  cbv beta iota zeta delta
    [Proc.bind Proc.try_except Proc.emit Proc.print Proc.ret Proc.raise
     Proc.sys_exit Proc.lift fst snd];
  cbn [app filter is_subprocess].

(** The graph of a half-size, 0.7-opaque, centred overlay. *)
Definition example_graph : list string :=
  ["[1:v]scale=iw*0.5:ih*0.5[scaled]";
   "[scaled]format=rgba,colorchannelmixer=aa=0.7[transparent]";
   "[0:v][transparent]overlay=(main_w-overlay_w)/2:(main_h-overlay_h)/2"].

(** A machine on which only the video exists. *)
Definition only_video (p : Path) : bool := String.eqb (path_str p) "clip.mp4".

(** A folder in which two clips share one modification time. *)
Definition tied_clips : list ConcatenateVideos.dirent :=
  [example_entry "x.mp4" true "5"; example_entry "a.mp4" true "5";
   example_entry "m.mp4" true "1"].

Definition tied_lookup (p : Path) : option ConcatenateVideos.node :=
  if String.eqb (path_str p) "ties"
  then Some (ConcatenateVideos.Directory tied_clips)
  else None.

(** Two path objects for one resolved path. *)
Definition same_file_1 : Path := {| path_str := "/v/a.mp4"; name := "a.mp4" |}.
Definition same_file_2 : Path := {| path_str := "/v/a.mp4"; name := "./a.mp4" |}.

(** A text all of whose bytes are ASCII.  On such a text [Py.lower] is
    Python's [str.lower]. *)
Fixpoint ascii_only (s : string) : bool :=
  match s with
  | "" => true
  | String a s' => (nat_of_ascii a <? 128)%nat && ascii_only s'
  end.

(** Python's [==] on floats: equal values, the two zeros included, and a
    NaN equal to nothing. *)
Definition float_equal (x y : Py.float) : bool := SFeqb x y.


(** * Properties *)

Section PositionFilter.
Import OverlayImage.

Lemma eqb_of_neq (a b : string) : a <> b -> String.eqb a b = false.
Proof. intro H. destruct (String.eqb_spec a b); [contradiction | reflexivity]. Qed.

Lemma unknown_preset_falls_back (p : string) (ox oy : Z) :
  ~ In p position_presets ->
  get_position_filter p ox oy = get_position_filter "top-right" ox oy.
Proof.
  intro Hp. unfold get_position_filter, position_map. cbn [dict_get].
  repeat match goal with
  | |- context [String.eqb p ?k] =>
      rewrite (eqb_of_neq p k)
        by (intro E; apply Hp; rewrite E; unfold position_presets; cbn; tauto)
  end.
  reflexivity.
Qed.

End PositionFilter.

(** C5.  Position resolution returns the preset's coordinate pair: top-left
    and custom give [x:y], top-right [main_w-overlay_w-x:y], bottom-left
    [x:main_h-overlay_h-y], bottom-right both differences, center the two
    halved differences, where [x] and [y] are the offsets in decimal; a
    string that is none of the six presets gets the top-right pair; and
    bottom-right with offsets 10 and 10 is exactly
    [main_w-overlay_w-10:main_h-overlay_h-10]. *)
Theorem get_position_filter_presets (offset_x offset_y : Z) :
  let x := Py.str_int offset_x in
  let y := Py.str_int offset_y in
  OverlayImage.get_position_filter "top-left" offset_x offset_y = x ++ ":" ++ y
  /\ OverlayImage.get_position_filter "custom" offset_x offset_y = x ++ ":" ++ y
  /\ OverlayImage.get_position_filter "top-right" offset_x offset_y
     = "main_w-overlay_w-" ++ x ++ ":" ++ y
  /\ OverlayImage.get_position_filter "bottom-left" offset_x offset_y
     = x ++ ":main_h-overlay_h-" ++ y
  /\ OverlayImage.get_position_filter "bottom-right" offset_x offset_y
     = "main_w-overlay_w-" ++ x ++ ":main_h-overlay_h-" ++ y
  /\ OverlayImage.get_position_filter "center" offset_x offset_y
     = "(main_w-overlay_w)/2:(main_h-overlay_h)/2"
  /\ (forall position, ~ In position position_presets ->
        OverlayImage.get_position_filter position offset_x offset_y
        = "main_w-overlay_w-" ++ x ++ ":" ++ y)
  /\ OverlayImage.get_position_filter "bottom-right" 10 10
     = "main_w-overlay_w-10:main_h-overlay_h-10".
Proof.
  cbv zeta. repeat split; try reflexivity.
  intros position Hp. rewrite unknown_preset_falls_back by exact Hp. reflexivity.
Qed.

(** The fallback of C5 at the unknown preset [middle]. *)
Lemma get_position_filter_presets_witness :
  ~ In "middle" position_presets
  /\ OverlayImage.get_position_filter "middle" 10 10 = "main_w-overlay_w-10:10".
Proof.
  assert (H : ~ In "middle" position_presets).
  { unfold position_presets. cbn. intros [E|[E|[E|[E|[E|[E|[]]]]]]]; discriminate E. }
  split; [exact H |].
  exact (proj1 (proj2 (proj2 (proj2 (proj2 (proj2 (proj2
           (get_position_filter_presets 10 10))))))) "middle" H).
Defined.

Section StringFacts.

Lemma append_assoc (a b c : string) : (a ++ b) ++ c = a ++ (b ++ c).
Proof. induction a as [|x a IH]; cbn; [reflexivity | now rewrite IH]. Qed.

Lemma append_nil_r (a : string) : a ++ "" = a.
Proof. induction a as [|x a IH]; cbn; [reflexivity | now rewrite IH]. Qed.

Lemma split_not_nil (sep : ascii) (s : string) : Py.split sep s <> [].
Proof.
  destruct s as [|a s]; cbn; [discriminate |].
  destruct (Ascii.eqb a sep); [discriminate |].
  destruct (Py.split sep s); discriminate.
Qed.

End StringFacts.

Section TimeParser.
Import OverlayImage.

(** On every string of at most three components the parser is the
    reference definition. *)
Lemma parse_time_agrees_up_to_three (time_str : string) :
  (List.length (Py.split ":" time_str) <= 3)%nat ->
  parse_time_to_seconds time_str = parse_time_reference time_str.
Proof.
  unfold parse_time_to_seconds, parse_time_reference.
  pose proof (split_not_nil ":" time_str) as Hne.
  destruct (Py.split ":" time_str) as [|a [|b [|c [|d l]]]]; cbn [List.length];
    intro Hlen; try reflexivity.
  - contradiction.
  - lia.
Qed.

Lemma parse_time_agrees_up_to_three_example :
  (List.length (Py.split ":" "01:02:03") <= 3)%nat
  /\ parse_time_to_seconds "01:02:03" = parse_time_reference "01:02:03".
Proof.
  assert (H : (List.length (Py.split ":" "01:02:03") <= 3)%nat) by (cbn; lia).
  split; [exact H | exact (parse_time_agrees_up_to_three "01:02:03" H)].
Defined.

(** The three values the specification lists. *)
Lemma parse_time_examples :
  parse_time_to_seconds "01:02:03" = Ok (float_literal "3723.0")
  /\ parse_time_to_seconds "02:03" = Ok (float_literal "123.0")
  /\ parse_time_to_seconds "45" = Ok (float_literal "45.0")
  /\ Py.repr_float (float_literal "3723.0") = "3723.0".
Proof. vm_compute. repeat split. Qed.

(** Negative and fractional components go through the arithmetic, and a
    component that is no number raises. *)
Lemma parse_time_unchecked :
  parse_time_to_seconds "-1:30.5" = Ok (float_literal "-29.5")
  /\ parse_time_to_seconds "1:xx"
     = Raise (ValueError "could not convert string to float: 'xx'")
  /\ parse_time_to_seconds ""
     = Raise (ValueError "could not convert string to float: ''").
Proof. vm_compute. repeat split. Qed.

End TimeParser.

(** C2.  The time parser is not the reference definition: on the
    four-component string [1:2:3:4] the reference fails with a format error
    and the code returns the first component, 1.0, as seconds. *)
Theorem parse_time_four_components :
  OverlayImage.parse_time_to_seconds "1:2:3:4" = Ok (float_literal "1.0")
  /\ Py.repr_float (float_literal "1.0") = "1.0"
  /\ parse_time_reference "1:2:3:4"
     = Raise (ValueError "invalid time format: '1:2:3:4'").
Proof. vm_compute. repeat split. Qed.

Section FilterGraph.
Import OverlayImage.

Variables (position : string) (scale : option string) (opacity : Py.float).
Variables (offset_x offset_y : Z).

(** Without a start time the second [if] is not taken. *)
Lemma overlay_options_without_start (start_time duration : option string) :
  Py.truthy start_time = false ->
  overlay_options start_time duration = Ok [].
Proof.
  unfold overlay_options.
  destruct start_time as [[|a st]|]; cbn; intro H; try discriminate H;
    destruct duration as [[|b du]|]; reflexivity.
Qed.

(** With both given, the first [if] appends the [gte] clause and the second
    appends the [between] clause after it. *)
Lemma overlay_options_with_both (st du : string) (t d : Py.float) :
  st <> "" -> du <> "" ->
  parse_time_to_seconds st = Ok t ->
  parse_time_to_seconds du = Ok d ->
  overlay_options (Some st) (Some du)
  = Ok [ "enable='gte(t," ++ Py.repr_float t ++ ")'";
         "enable='between(t," ++ Py.repr_float t ++ ","
           ++ Py.repr_float (Py.fadd t d) ++ ")'" ].
Proof.
  intros Hst Hdu Ht Hd. unfold overlay_options.
  destruct st as [|a st]; [contradiction |].
  destruct du as [|b du]; [contradiction |].
  rewrite Ht, Hd. reflexivity.
Qed.

(** With a start time only, the [gte] clause alone. *)
Lemma overlay_options_start_only (st : string) (duration : option string)
    (t : Py.float) :
  st <> "" -> Py.truthy duration = false ->
  parse_time_to_seconds st = Ok t ->
  overlay_options (Some st) duration
  = Ok [ "enable='gte(t," ++ Py.repr_float t ++ ")'" ].
Proof.
  intros Hst Hdu Ht. unfold overlay_options.
  destruct st as [|a st]; [contradiction |].
  rewrite Ht. destruct duration as [[|b du]|]; try discriminate Hdu; reflexivity.
Qed.

(** [filter_parts] in terms of its three steps. *)
Lemma filter_parts_steps (start_time duration : option string)
    (parts1 : list string) (input1 : string) (options : list string) :
  scale_step scale = Ok (parts1, input1) ->
  overlay_options start_time duration = Ok options ->
  filter_parts position scale opacity offset_x offset_y start_time duration
  = Ok (parts1 ++ fst (opacity_step scale opacity input1)
          ++ [overlay_filter (snd (opacity_step scale opacity input1))
                (get_position_filter position offset_x offset_y) options])%list.
Proof.
  intros Hs Ho. unfold filter_parts. rewrite Hs. cbn [bind].
  destruct (opacity_step scale opacity input1) as [parts2 input2].
  rewrite Ho. reflexivity.
Qed.


(** What [scale_step] leaves in [overlay_input]. *)
Lemma scale_step_input (parts1 : list string) (input1 : string) :
  scale_step scale = Ok (parts1, input1) ->
  input1 = if Py.truthy scale then "[scaled]" else "[1:v]".
Proof.
  unfold scale_step. destruct scale as [[|a sc]|]; cbn [Py.truthy].
  - intro H. now inversion H.
  - destruct (Py.endswith (String a sc) "%").
    + destruct (Py.float_ (Py.drop_last (String a sc))); cbn [bind]; intro H;
        [now inversion H | discriminate H].
    + cbn [bind]. intro H. now inversion H.
  - intro H. now inversion H.
Qed.

End FilterGraph.

Section OverlaySegment.
Import OverlayImage.

Lemma float_one : Py.float_of_int 1 = float_literal "1.0".
Proof. vm_compute. reflexivity. Qed.

Lemma float_zero : Py.float_of_int 0 = float_literal "0.0".
Proof. vm_compute. reflexivity. Qed.

(** The final segment with and without options, written out. *)
Lemma overlay_filter_plain (input pos : string) :
  overlay_filter input pos [] = "[0:v]" ++ input ++ "overlay=" ++ pos.
Proof. reflexivity. Qed.

Lemma overlay_filter_options (input pos o : string) (os : list string) :
  overlay_filter input pos (o :: os)
  = "[0:v]" ++ input ++ "overlay=" ++ pos ++ ":" ++ Py.join ":" (o :: os).
Proof.
  unfold overlay_filter. cbn [append].
  rewrite append_assoc. cbn [append]. reflexivity.
Qed.

Lemma overlay_filter_reads (input pos : string) (options : list string) :
  exists tail,
    overlay_filter input pos options = "[0:v]" ++ input ++ "overlay=" ++ pos ++ tail.
Proof.
  destruct options as [|o os].
  - exists "". rewrite overlay_filter_plain. now rewrite append_nil_r.
  - exists (":" ++ Py.join ":" (o :: os)). apply overlay_filter_options.
Qed.

Lemma opacity_step_below_one (scale : option string) (opacity : Py.float)
    (input1 : string) :
  Py.flt opacity (float_literal "1.0") = true ->
  input1 = (if Py.truthy scale then "[scaled]" else "[1:v]") ->
  opacity_step scale opacity input1
  = ([input1 ++ "format=rgba,colorchannelmixer=aa=" ++ Py.repr_float opacity
        ++ "[transparent]"], "[transparent]").
Proof.
  intros Hlt Hin. unfold opacity_step. rewrite float_one, Hlt, Hin.
  destruct (Py.truthy scale); reflexivity.
Qed.

Lemma endswith_percent (n : string) : Py.endswith (n ++ "%") "%" = true.
Proof.
  induction n as [|a n IH]; [reflexivity |].
  cbn [append Py.endswith]. destruct (n ++ "%") eqn:E; [| exact IH].
  destruct n; discriminate E.
Qed.

Lemma drop_last_percent (n : string) : Py.drop_last (n ++ "%") = n.
Proof.
  induction n as [|a n IH]; [reflexivity |].
  cbn [append Py.drop_last]. destruct (n ++ "%") eqn:E.
  - destruct n; discriminate E.
  - now rewrite IH.
Qed.

Lemma scale_step_percent (n : string) (x : Py.float) :
  Py.float_ n = Ok x ->
  let f := Py.repr_float (Py.fdiv x (Py.float_of_int 100)) in
  scale_step (Some (n ++ "%"))
  = Ok (["[1:v]" ++ ("scale=iw*" ++ f ++ ":ih*" ++ f) ++ "[scaled]"], "[scaled]").
Proof.
  intros Hx f. unfold scale_step.
  destruct (n ++ "%") as [|a s] eqn:E; [destruct n; discriminate E |].
  rewrite <- E, endswith_percent, drop_last_percent, Hx. reflexivity.
Qed.

Lemma scale_step_literal (s : string) :
  s <> "" -> Py.endswith s "%" = false ->
  scale_step (Some s) = Ok (["[1:v]" ++ ("scale=" ++ s) ++ "[scaled]"], "[scaled]").
Proof.
  intros Hs He. unfold scale_step. destruct s as [|a s]; [contradiction |].
  rewrite He. reflexivity.
Qed.

Lemma scale_step_present (s : string) (parts1 : list string) (input1 : string) :
  s <> "" -> scale_step (Some s) = Ok (parts1, input1) ->
  exists scale_filter,
    parts1 = ["[1:v]" ++ scale_filter ++ "[scaled]"] /\ input1 = "[scaled]".
Proof.
  intros Hs. unfold scale_step. destruct s as [|a s]; [contradiction |].
  destruct (Py.endswith (String a s) "%").
  - destruct (Py.float_ (Py.drop_last (String a s))) as [x|e]; cbn [bind];
      intro H; [| discriminate H].
    exists ("scale=iw*" ++ Py.repr_float (Py.fdiv x (Py.float_of_int 100))
              ++ ":ih*" ++ Py.repr_float (Py.fdiv x (Py.float_of_int 100))).
    injection H as <- <-. split; reflexivity.
  - cbn [bind]. intro H. exists ("scale=" ++ String a s).
    injection H as <- <-. split; reflexivity.
Qed.

End OverlaySegment.

(** C1, as the code has it.  When a start time and a duration are both
    given and parse to the floats [t0] and [d], the final overlay segment
    carries two enable clauses, joined by a colon: first the [gte] clause
    on [t0], then the [between] clause on [t0] and [t0 + d]; the second is
    appended after the first and does not replace it. *)
Theorem time_gate_appends_between
    (position : string) (scale : option string) (opacity : Py.float)
    (offset_x offset_y : Z) (st du : string) (t0 d : Py.float)
    (parts1 : list string) (input1 : string) :
  st <> "" -> du <> "" ->
  OverlayImage.parse_time_to_seconds st = Ok t0 ->
  OverlayImage.parse_time_to_seconds du = Ok d ->
  OverlayImage.scale_step scale = Ok (parts1, input1) ->
  let gte := "enable='gte(t," ++ Py.repr_float t0 ++ ")'" in
  let between := "enable='between(t," ++ Py.repr_float t0 ++ ","
                   ++ Py.repr_float (Py.fadd t0 d) ++ ")'" in
  let step := OverlayImage.opacity_step scale opacity input1 in
  let final :=
    "[0:v]" ++ snd step ++ "overlay="
      ++ OverlayImage.get_position_filter position offset_x offset_y
      ++ ":" ++ gte ++ ":" ++ between in
  OverlayImage.overlay_options (Some st) (Some du) = Ok [gte; between]
  /\ OverlayImage.filter_parts position scale opacity offset_x offset_y
       (Some st) (Some du)
     = Ok (parts1 ++ fst step ++ [final])%list.
Proof.
  intros Hst Hdu Ht Hd Hs gte between step final.
  pose proof (overlay_options_with_both st du t0 d Hst Hdu Ht Hd) as Ho.
  split; [exact Ho |].
  rewrite (filter_parts_steps position scale opacity offset_x offset_y
             (Some st) (Some du) parts1 input1 _ Hs Ho).
  rewrite overlay_filter_options. reflexivity.
Qed.

(** C1 at the scenario of the specification: start 00:00:10 and duration
    00:00:30 on an otherwise default overlay. *)
Lemma time_gate_appends_between_witness :
  OverlayImage.filter_parts "top-right" None (float_literal "1.0") 10 10
    (Some "00:00:10") (Some "00:00:30")
  = Ok ["[0:v][1:v]overlay=main_w-overlay_w-10:10:enable='gte(t,10.0)':enable='between(t,10.0,40.0)'"].
Proof.
  refine (eq_trans
    (proj2 (time_gate_appends_between "top-right" None (float_literal "1.0")
              10 10 "00:00:10" "00:00:30"
              (float_literal "10.0") (float_literal "30.0") [] "[1:v]"
              _ _ _ _ _)) _).
  - discriminate.
  - discriminate.
  - vm_compute. reflexivity.
  - vm_compute. reflexivity.
  - reflexivity.
  - vm_compute. reflexivity.
Defined.

(** C1 as stated fails: for start 00:00:10 and duration 00:00:30 the single
    segment of the graph holds two enable clauses, the [gte] one still
    there in front of the [between] one; it is not the segment with the
    [between] clause alone. *)
Lemma single_time_gate_counterexample :
  OverlayImage.filter_complex "top-right" None (float_literal "1.0") 10 10
    (Some "00:00:10") (Some "00:00:30")
  = Ok "[0:v][1:v]overlay=main_w-overlay_w-10:10:enable='gte(t,10.0)':enable='between(t,10.0,40.0)'"
  /\ count_occurrences "enable="
       "[0:v][1:v]overlay=main_w-overlay_w-10:10:enable='gte(t,10.0)':enable='between(t,10.0,40.0)'"
     = 2%nat
  /\ count_occurrences "enable='gte("
       "[0:v][1:v]overlay=main_w-overlay_w-10:10:enable='gte(t,10.0)':enable='between(t,10.0,40.0)'"
     = 1%nat
  /\ String.eqb
       "[0:v][1:v]overlay=main_w-overlay_w-10:10:enable='gte(t,10.0)':enable='between(t,10.0,40.0)'"
       "[0:v][1:v]overlay=main_w-overlay_w-10:10:enable='between(t,10.0,40.0)'"
     = false.
Proof. vm_compute. repeat split. Qed.

(** C3.  A duration without a start time changes nothing: the graph is the
    one built with no duration at all. *)
Theorem duration_without_start_time
    (position : string) (scale : option string) (opacity : Py.float)
    (offset_x offset_y : Z) (start_time : option string) (du : string) :
  Py.truthy start_time = false ->
  OverlayImage.filter_complex position scale opacity offset_x offset_y
    start_time (Some du)
  = OverlayImage.filter_complex position scale opacity offset_x offset_y
      start_time None.
Proof.
  intro H. unfold OverlayImage.filter_complex, OverlayImage.filter_parts.
  rewrite !(overlay_options_without_start _ _ H). reflexivity.
Qed.

(** C3 on a scaled, half-transparent overlay with a duration of 30 seconds
    and no start time. *)
Lemma duration_without_start_time_witness :
  OverlayImage.filter_complex "center" (Some "50%") (float_literal "0.7") 10 10
    None (Some "00:00:30")
  = OverlayImage.filter_complex "center" (Some "50%") (float_literal "0.7") 10 10
      None None.
Proof.
  apply (duration_without_start_time "center" (Some "50%") (float_literal "0.7")
           10 10 None "00:00:30").
  reflexivity.
Defined.

(** C4.  With an opacity below 1.0 the graph has an opacity segment that
    reads from the current overlay tag ([scaled] when a scale expression is
    present, else the raw input [1:v]), converts to rgba, scales the alpha
    channel by the opacity and writes to [transparent]; the final overlay
    segment, right after it, reads from [transparent].  Opacity 0.7 with no
    scale reads from [1:v]. *)
Theorem opacity_segment_reads_current_tag :
  (forall (position : string) (scale : option string) (opacity : Py.float)
          (offset_x offset_y : Z) (start_time duration : option string)
          (parts1 : list string) (input1 : string) (options : list string),
      Py.flt opacity (float_literal "1.0") = true ->
      OverlayImage.scale_step scale = Ok (parts1, input1) ->
      OverlayImage.overlay_options start_time duration = Ok options ->
      let tag := if Py.truthy scale then "[scaled]" else "[1:v]" in
      let opacity_segment :=
        tag ++ "format=rgba,colorchannelmixer=aa=" ++ Py.repr_float opacity
          ++ "[transparent]" in
      let position_filter :=
        OverlayImage.get_position_filter position offset_x offset_y in
      exists tail,
        OverlayImage.filter_parts position scale opacity offset_x offset_y
          start_time duration
        = Ok (app parts1
                [opacity_segment;
                 "[0:v][transparent]overlay=" ++ position_filter ++ tail]))
  /\ OverlayImage.filter_parts "top-right" None (float_literal "0.7") 10 10
       None None
     = Ok ["[1:v]format=rgba,colorchannelmixer=aa=0.7[transparent]";
           "[0:v][transparent]overlay=main_w-overlay_w-10:10"].
Proof.
  split; [| vm_compute; reflexivity].
  intros position scale opacity offset_x offset_y start_time duration
    parts1 input1 options Hlt Hs Ho tag opacity_segment position_filter.
  pose proof (scale_step_input scale parts1 input1 Hs) as Hin.
  destruct (overlay_filter_reads "[transparent]" position_filter options)
    as [tail Htail].
  exists tail.
  rewrite (filter_parts_steps position scale opacity offset_x offset_y
             start_time duration parts1 input1 options Hs Ho).
  rewrite (opacity_step_below_one scale opacity input1 Hlt Hin).
  cbn [fst snd]. fold position_filter. rewrite Htail, Hin. reflexivity.
Qed.

(** C4 with a scale: the opacity segment reads from [scaled]. *)
Lemma opacity_segment_reads_current_tag_witness :
  exists tail,
    OverlayImage.filter_parts "center" (Some "100:100") (float_literal "0.7")
      10 10 None None
    = Ok (app ["[1:v]scale=100:100[scaled]"]
            ["[scaled]format=rgba,colorchannelmixer=aa="
               ++ Py.repr_float (float_literal "0.7") ++ "[transparent]";
             "[0:v][transparent]overlay="
               ++ OverlayImage.get_position_filter "center" 10 10 ++ tail]).
Proof.
  apply (proj1 opacity_segment_reads_current_tag "center" (Some "100:100")
           (float_literal "0.7") 10%Z 10%Z None None
           ["[1:v]scale=100:100[scaled]"] "[scaled]" []).
  - vm_compute. reflexivity.
  - reflexivity.
  - reflexivity.
Defined.

(** C6.  With a scale expression present the first segment of the graph is
    the scale segment, from [1:v] to [scaled]: [N%] gives
    [scale=iw*f:ih*f] with [f] the float [N / 100] (so [50%] gives
    [scale=iw*0.5:ih*0.5]), and a string that does not end in a percent
    sign is passed through as [scale=s]. *)
Theorem scale_segment_first :
  (forall (n : string) (x : Py.float),
      Py.float_ n = Ok x ->
      let f := Py.repr_float (Py.fdiv x (Py.float_of_int 100)) in
      OverlayImage.scale_step (Some (n ++ "%"))
      = Ok (["[1:v]" ++ ("scale=iw*" ++ f ++ ":ih*" ++ f) ++ "[scaled]"],
            "[scaled]"))
  /\ (forall s : string,
        s <> "" -> Py.endswith s "%" = false ->
        OverlayImage.scale_step (Some s)
        = Ok (["[1:v]" ++ ("scale=" ++ s) ++ "[scaled]"], "[scaled]"))
  /\ (forall (position s : string) (opacity : Py.float) (offset_x offset_y : Z)
             (start_time duration : option string) (parts : list string),
        s <> "" ->
        OverlayImage.filter_parts position (Some s) opacity offset_x offset_y
          start_time duration = Ok parts ->
        exists scale_filter rest,
          OverlayImage.scale_step (Some s)
          = Ok (["[1:v]" ++ scale_filter ++ "[scaled]"], "[scaled]")
          /\ parts = ("[1:v]" ++ scale_filter ++ "[scaled]") :: rest)
  /\ OverlayImage.filter_parts "top-right" (Some "50%") (float_literal "1.0")
       10 10 None None
     = Ok ["[1:v]scale=iw*0.5:ih*0.5[scaled]";
           "[0:v][scaled]overlay=main_w-overlay_w-10:10"].
Proof.
  split; [exact scale_step_percent |].
  split; [exact scale_step_literal |].
  split; [| vm_compute; reflexivity].
  intros position s opacity offset_x offset_y start_time duration parts Hs Hp.
  destruct (OverlayImage.scale_step (Some s)) as [[parts1 input1]|e] eqn:Es.
  - destruct (scale_step_present s parts1 input1 Hs Es) as [sf [-> ->]].
    destruct (OverlayImage.overlay_options start_time duration) as [options|e]
      eqn:Eo.
    + rewrite (filter_parts_steps position (Some s) opacity offset_x offset_y
                 start_time duration _ _ options Es Eo) in Hp.
      injection Hp as <-. exists sf. eexists. split; reflexivity.
    + unfold OverlayImage.filter_parts in Hp. rewrite Es in Hp. cbn [bind] in Hp.
      destruct (OverlayImage.opacity_step (Some s) opacity "[scaled]").
      rewrite Eo in Hp. discriminate Hp.
  - unfold OverlayImage.filter_parts in Hp. rewrite Es in Hp. discriminate Hp.
Qed.

(** C6 at the percentage 25%, whose factor prints as 0.25, and at the
    literal 100:100. *)
Lemma scale_segment_first_witness :
  OverlayImage.scale_step (Some ("25" ++ "%"))
  = Ok (["[1:v]" ++ ("scale=iw*"
           ++ Py.repr_float (Py.fdiv (float_literal "25") (Py.float_of_int 100))
           ++ ":ih*"
           ++ Py.repr_float (Py.fdiv (float_literal "25") (Py.float_of_int 100)))
           ++ "[scaled]"], "[scaled]")
  /\ OverlayImage.scale_step (Some "100:100")
     = Ok (["[1:v]" ++ ("scale=" ++ "100:100") ++ "[scaled]"], "[scaled]")
  /\ Py.repr_float (Py.fdiv (float_literal "25") (Py.float_of_int 100)) = "0.25".
Proof.
  split; [| split].
  - apply (proj1 scale_segment_first "25" (float_literal "25")).
    vm_compute. reflexivity.
  - apply (proj1 (proj2 scale_segment_first) "100:100").
    + discriminate.
    + reflexivity.
  - vm_compute. reflexivity.
Defined.

Section OpacityCheck.
Import OverlayImage.

Lemma compare_cont_flip (p q : positive) :
  Pos.compare_cont Eq p q = Lt -> Pos.compare_cont Eq q p = Gt.
Proof.
  change (Pos.compare_cont Eq p q) with (Pos.compare p q).
  change (Pos.compare_cont Eq q p) with (Pos.compare q p).
  intro H. apply Pos.compare_gt_iff. apply Pos.compare_lt_iff. exact H.
Qed.

Lemma compare_cont_flip_gt (p q : positive) :
  Pos.compare_cont Eq p q = Gt -> Pos.compare_cont Eq q p = Lt.
Proof.
  change (Pos.compare_cont Eq p q) with (Pos.compare p q).
  change (Pos.compare_cont Eq q p) with (Pos.compare q p).
  intro H. apply Pos.compare_lt_iff. apply Pos.compare_gt_iff. exact H.
Qed.

(** A float strictly below another is not above or equal to it. *)
Lemma flt_not_fle (x y : Py.float) : Py.flt x y = true -> Py.fle y x = false.
Proof.
  unfold Py.flt, Py.fle, SFltb, SFleb.
  destruct x as [sx|sx| |sx mx ex], y as [sy|sy| |sy my ey]; cbn;
    try discriminate;
    try (destruct sx; cbn; try discriminate; try reflexivity;
         destruct sy; cbn; try discriminate; reflexivity);
    try (destruct sy; cbn; try discriminate; reflexivity).
  rewrite (Z.compare_antisym ex ey).
  destruct sx, sy; try discriminate; try reflexivity;
    destruct (ex ?= ey)%Z; cbn; try discriminate; try reflexivity.
  - destruct (Pos.compare_cont Eq mx my) eqn:E; cbn; try discriminate.
    now rewrite (compare_cont_flip_gt _ _ E).
  - destruct (Pos.compare_cont Eq mx my) eqn:E; cbn; try discriminate.
    now rewrite (compare_cont_flip _ _ E).
Qed.

(** Below 0.0, above 1.0 or a NaN: outside the interval. *)
Lemma outside_unit_interval (x : Py.float) :
  Py.flt x (float_literal "0.0") = true
  \/ Py.flt (float_literal "1.0") x = true
  \/ x = S754_nan ->
  in_unit_interval x = false.
Proof.
  unfold in_unit_interval. intros [H|[H| ->]].
  - now rewrite (flt_not_fle _ _ H).
  - rewrite (flt_not_fle _ _ H). apply andb_false_r.
  - reflexivity.
Qed.

Variable Path_of : string -> Path.
Variable exists_ : Path -> bool.
Variable subprocess_run : list string -> result (Z * string).
Variable abspath : string -> string.
Variable dirname : string -> string.
Variable makedirs : string -> result unit.

(** An opacity outside the interval ends [main] at its first statement. *)
Lemma main_rejects_opacity (args : Args) :
  in_unit_interval (opacity args) = false ->
  main Path_of exists_ subprocess_run abspath dirname makedirs args
  = ([Print "❌ Error: Opacity must be between 0.0 and 1.0"], Exited 1%Z).
Proof.
  unfold in_unit_interval, main. rewrite float_zero, float_one.
  intros ->. reflexivity.
Qed.

(** An opacity inside it lets [main] go on to the probe for ffmpeg, the
    first event of the run. *)
Lemma main_accepts_opacity (args : Args) :
  in_unit_interval (opacity args) = true ->
  exists rest,
    Proc.trace (main Path_of exists_ subprocess_run abspath dirname makedirs args)
    = Subprocess ["ffmpeg"; "-version"] :: rest.
Proof.
  unfold in_unit_interval, main. rewrite float_zero, float_one.
  intros ->. cbn [negb]. unfold check_ffmpeg, Proc.trace.
  destruct (subprocess_run ["ffmpeg"; "-version"]) as [[rc err]|e].
  - destruct rc; cbn; [| eexists; reflexivity ..].
    match goal with |- context [Proc.try_except ?m ?h] =>
      destruct (Proc.try_except m h) as [tr o] end.
    cbn. eexists. reflexivity.
  - destruct e; cbn; eexists; reflexivity.
Qed.

End OpacityCheck.

(** C8.  With an opacity outside the interval from 0.0 to 1.0 a run of the
    overlay tool exits with code 1 and starts no child process, not even
    the probe for ffmpeg. *)
Theorem opacity_out_of_range_exits_first
    (Path_of : string -> Path) (exists_ : Path -> bool)
    (subprocess_run : list string -> result (Z * string))
    (abspath dirname : string -> string) (makedirs : string -> result unit)
    (args : OverlayImage.Args) :
  in_unit_interval (OverlayImage.opacity args) = false ->
  let run :=
    OverlayImage.main Path_of exists_ subprocess_run abspath dirname makedirs
      args in
  Proc.final run = Exited 1%Z
  /\ existsb is_subprocess (Proc.trace run) = false.
Proof.
  intros H run. unfold run.
  rewrite (main_rejects_opacity Path_of exists_ subprocess_run abspath dirname
             makedirs args H).
  split; reflexivity.
Qed.

(** C8 at opacity 1.5, on a machine where every file exists and every
    child process succeeds. *)
Lemma opacity_out_of_range_exits_first_witness :
  let args :=
    {| OverlayImage.video := "video.mp4";
       OverlayImage.image := "logo.png";
       OverlayImage.output := None;
       OverlayImage.position := "top-right";
       OverlayImage.scale := None;
       OverlayImage.opacity := float_literal "1.5";
       OverlayImage.offset_x := 10;
       OverlayImage.offset_y := 10;
       OverlayImage.start_time := None;
       OverlayImage.duration := None |} in
  let run :=
    OverlayImage.main (fun s => {| path_str := s; name := s |})
      (fun _ => true) (fun _ => Ok (0%Z, "")) (fun s => s) (fun s => s)
      (fun _ => Ok tt) args in
  Proc.final run = Exited 1%Z
  /\ existsb is_subprocess (Proc.trace run) = false.
Proof.
  intros args.
  apply (opacity_out_of_range_exits_first
           (fun s => {| path_str := s; name := s |})
           (fun _ => true) (fun _ => Ok (0%Z, "")) (fun s => s) (fun s => s)
           (fun _ => Ok tt) args).
  vm_compute. reflexivity.
Defined.

Section Discovery.
Import ConcatenateVideos.

Variable Path_of : string -> Path.
Variable lookup : Path -> option node.

Lemma filter_none {A : Type} (f : A -> bool) (l : list A) :
  (forall x, In x l -> f x = false) -> filter f l = [].
Proof.
  induction l as [|a l IH]; intro H; [reflexivity |].
  cbn [filter]. rewrite (H a (or_introl eq_refl)).
  apply IH. intros x Hx. apply H. right. exact Hx.
Qed.

Lemma filter_nil_existsb {A : Type} (f : A -> bool) (l : list A) :
  filter f l = [] <-> existsb f l = false.
Proof.
  induction l as [|a l IH]; cbn [filter existsb]; [tauto |].
  destruct (f a); cbn [orb]; [split; discriminate | exact IH].
Qed.

(** The three early failures of discovery, whatever the sort method. *)
Lemma find_mp4_files_missing (folder_path sort_method : string) :
  lookup (Path_of folder_path) = None ->
  find_mp4_files Path_of lookup folder_path sort_method
  = Raise (FileNotFoundError ("Folder does not exist: " ++ folder_path)).
Proof. intro H. unfold find_mp4_files. now rewrite H. Qed.

Lemma find_mp4_files_not_a_directory (folder_path sort_method : string) :
  lookup (Path_of folder_path) = Some NotDirectory ->
  find_mp4_files Path_of lookup folder_path sort_method
  = Raise (NotADirectoryError ("Path is not a directory: " ++ folder_path)).
Proof. intro H. unfold find_mp4_files. now rewrite H. Qed.

Lemma find_mp4_files_empty (folder_path sort_method : string)
    (entries : list dirent) :
  lookup (Path_of folder_path) = Some (Directory entries) ->
  existsb is_mp4 entries = false ->
  find_mp4_files Path_of lookup folder_path sort_method
  = Raise (ValueError ("No MP4 files found in folder: " ++ folder_path)).
Proof.
  intros H He. unfold find_mp4_files. rewrite H.
  apply filter_nil_existsb in He. now rewrite He.
Qed.

(** With a matching file and a sort method that is none of the three, the
    last [else] raises. *)
Lemma find_mp4_files_invalid_sort (folder_path sort_method : string)
    (entries : list dirent) :
  lookup (Path_of folder_path) = Some (Directory entries) ->
  existsb is_mp4 entries = true ->
  ~ In sort_method sort_methods ->
  find_mp4_files Path_of lookup folder_path sort_method
  = Raise (ValueError ("Invalid sort method: " ++ sort_method)).
Proof.
  intros H He Hs. unfold find_mp4_files. rewrite H.
  destruct (filter is_mp4 entries) as [|e es] eqn:Ef.
  - apply filter_nil_existsb in Ef. congruence.
  - repeat match goal with
    | |- context [String.eqb sort_method ?k] =>
        rewrite (eqb_of_neq sort_method k)
          by (intro E; apply Hs; rewrite E; unfold sort_methods; cbn; tauto)
    end.
    reflexivity.
Qed.

(** With a valid sort method and a matching file discovery returns the
    matching files, reordered. *)
Lemma find_mp4_files_returns (folder_path sort_method : string)
    (entries : list dirent) :
  lookup (Path_of folder_path) = Some (Directory entries) ->
  existsb is_mp4 entries = true ->
  In sort_method sort_methods ->
  exists files,
    find_mp4_files Path_of lookup folder_path sort_method = Ok files.
Proof.
  intros H He Hs. unfold find_mp4_files. rewrite H.
  destruct (filter is_mp4 entries) as [|e es] eqn:Ef.
  - apply filter_nil_existsb in Ef. congruence.
  - unfold sort_methods in Hs. cbn in Hs.
    destruct Hs as [<-|[<-|[<-|[]]]]; cbn; eexists; reflexivity.
Qed.

End Discovery.

(** C7.  Discovery fails with [FileNotFoundError] when the folder does not
    exist, with [NotADirectoryError] when the path is not a directory, and
    with the empty-result error (a [ValueError], no MP4 files found) when
    no entry of the directory is a regular file whose suffix, lower-cased,
    is [.mp4]. *)
Theorem discovery_failures
    (Path_of : string -> Path) (lookup : Path -> option ConcatenateVideos.node)
    (folder_path sort_method : string) :
  (lookup (Path_of folder_path) = None ->
   ConcatenateVideos.find_mp4_files Path_of lookup folder_path sort_method
   = Raise (FileNotFoundError ("Folder does not exist: " ++ folder_path)))
  /\ (lookup (Path_of folder_path) = Some ConcatenateVideos.NotDirectory ->
      ConcatenateVideos.find_mp4_files Path_of lookup folder_path sort_method
      = Raise (NotADirectoryError ("Path is not a directory: " ++ folder_path)))
  /\ (forall entries,
        lookup (Path_of folder_path) = Some (ConcatenateVideos.Directory entries) ->
        (forall e, In e entries ->
           ConcatenateVideos.d_is_file e = true ->
           Py.lower (suffix (ConcatenateVideos.d_path e)) <> ".mp4") ->
        ConcatenateVideos.find_mp4_files Path_of lookup folder_path sort_method
        = Raise (ValueError ("No MP4 files found in folder: " ++ folder_path))).
Proof.
  split; [apply find_mp4_files_missing |].
  split; [apply find_mp4_files_not_a_directory |].
  intros entries H Hnone.
  apply (find_mp4_files_empty Path_of lookup folder_path sort_method entries H).
  apply filter_nil_existsb. apply filter_none.
  intros e He. unfold ConcatenateVideos.is_mp4.
  destruct (ConcatenateVideos.d_is_file e) eqn:Ef; [| reflexivity].
  cbn [andb]. apply eqb_of_neq. exact (Hnone e He Ef).
Qed.

(** C7 on the three paths that fail. *)
Lemma discovery_failures_witness :
  ConcatenateVideos.find_mp4_files example_path example_lookup "nowhere"
    "alphabetical"
  = Raise (FileNotFoundError "Folder does not exist: nowhere")
  /\ ConcatenateVideos.find_mp4_files example_path example_lookup "README"
       "alphabetical"
     = Raise (NotADirectoryError "Path is not a directory: README")
  /\ ConcatenateVideos.find_mp4_files example_path example_lookup "notes"
       "alphabetical"
     = Raise (ValueError "No MP4 files found in folder: notes").
Proof.
  split; [| split].
  - apply (proj1 (discovery_failures example_path example_lookup "nowhere"
                    "alphabetical")).
    reflexivity.
  - apply (proj1 (proj2 (discovery_failures example_path example_lookup
                           "README" "alphabetical"))).
    reflexivity.
  - apply (proj2 (proj2 (discovery_failures example_path example_lookup
                           "notes" "alphabetical"))
             [example_entry "todo.txt" true "1"; example_entry "old.mp4" false "2"]).
    + reflexivity.
    + intros e [<-|[<-|[]]]; cbn; discriminate.
Defined.

(** C10.  A sort method that is none of the three is an error, the last
    one checked: a missing folder, a path that is not a directory and a
    directory without MP4 files are reported first, and only a directory
    with an MP4 file gets the invalid-sort-method error. *)
Theorem invalid_sort_method_checked_last
    (Path_of : string -> Path) (lookup : Path -> option ConcatenateVideos.node)
    (folder_path sort_method : string) :
  ~ In sort_method sort_methods ->
  ConcatenateVideos.find_mp4_files Path_of lookup folder_path sort_method
  = match lookup (Path_of folder_path) with
    | None =>
        Raise (FileNotFoundError ("Folder does not exist: " ++ folder_path))
    | Some ConcatenateVideos.NotDirectory =>
        Raise (NotADirectoryError ("Path is not a directory: " ++ folder_path))
    | Some (ConcatenateVideos.Directory entries) =>
        if existsb ConcatenateVideos.is_mp4 entries
        then Raise (ValueError ("Invalid sort method: " ++ sort_method))
        else Raise (ValueError ("No MP4 files found in folder: " ++ folder_path))
    end.
Proof.
  intro Hs.
  destruct (lookup (Path_of folder_path)) as [[entries|]|] eqn:H.
  - destruct (existsb ConcatenateVideos.is_mp4 entries) eqn:He.
    + exact (find_mp4_files_invalid_sort Path_of lookup folder_path sort_method
               entries H He Hs).
    + exact (find_mp4_files_empty Path_of lookup folder_path sort_method
               entries H He).
  - exact (find_mp4_files_not_a_directory Path_of lookup folder_path
             sort_method H).
  - exact (find_mp4_files_missing Path_of lookup folder_path sort_method H).
Qed.

(** C10 with the sort method [size]: rejected on [videos], which has an MP4
    file, and hidden behind the empty-result error on [notes]. *)
Lemma invalid_sort_method_checked_last_witness :
  ConcatenateVideos.find_mp4_files example_path example_lookup "videos" "size"
  = Raise (ValueError "Invalid sort method: size")
  /\ ConcatenateVideos.find_mp4_files example_path example_lookup "notes" "size"
     = Raise (ValueError "No MP4 files found in folder: notes").
Proof.
  assert (H : ~ In "size" sort_methods).
  { unfold sort_methods. cbn. intros [E|[E|[E|[]]]]; discriminate E. }
  split.
  - exact (invalid_sort_method_checked_last example_path example_lookup
             "videos" "size" H).
  - exact (invalid_sort_method_checked_last example_path example_lookup
             "notes" "size" H).
Defined.

(** Discovery on [videos]: the one regular file with an MP4 suffix. *)
Lemma find_mp4_files_example :
  ConcatenateVideos.find_mp4_files example_path example_lookup "videos"
    "date_modified"
  = Ok [example_path "A.MP4"].
Proof. vm_compute. reflexivity. Qed.

Section ConcatList.
Import ConcatenateVideos.

(** Replacing a one-character pattern works character by character. *)
Lemma replace_char_cons (c : ascii) (new : string) (a : ascii) (s : string) :
  Py.replace (String c "") new (String a s)
  = if Ascii.eqb a c then new ++ Py.replace (String c "") new s
    else String a (Py.replace (String c "") new s).
Proof.
  unfold Py.replace. cbn [Py.replace_from String.prefix String.length Nat.sub].
  destruct (ascii_dec c a) as [->|Hne].
  - rewrite Ascii.eqb_refl. destruct s; reflexivity.
  - destruct (Ascii.eqb_spec a c) as [->|_]; [contradiction | reflexivity].
Qed.

Lemma replace_char_nil (c : ascii) (new : string) :
  Py.replace (String c "") new "" = "".
Proof. reflexivity. Qed.

(** The two replacements of the loop, in their order, quote a path. *)
Lemma escaped_path_quoted (s : string) :
  Py.replace "'" "\'" (Py.replace "\" "/" s) = quoted_path s.
Proof.
  induction s as [|a s IH]; [reflexivity |].
  rewrite replace_char_cons. cbn [quoted_path].
  destruct (Ascii.eqb a "\") eqn:Eb.
  - cbn [append]. rewrite replace_char_cons. cbn. now rewrite IH.
  - rewrite replace_char_cons. destruct (Ascii.eqb a "'"); cbn [append];
      now rewrite IH.
Qed.


Variable resolve : Path -> string.

Lemma write_entry_line (written : string) (f : Path) :
  write_entry resolve written f = written ++ concat_line resolve f.
Proof.
  unfold write_entry, concat_line, concat_entry.
  rewrite escaped_path_quoted. f_equal. cbn [append]. do 6 f_equal.
  now rewrite append_assoc.
Qed.




Lemma split_at_separator (sep : ascii) (a b : string) :
  Py.contains_char sep a = false ->
  Py.split sep (a ++ String sep b) = a :: Py.split sep b.
Proof.
  induction a as [|x a IH]; cbn [append Py.split Py.contains_char].
  - intros _. now rewrite Ascii.eqb_refl.
  - intro H. apply orb_false_iff in H. destruct H as [Hx Ha].
    rewrite Hx, (IH Ha). reflexivity.
Qed.


End ConcatList.




(** * Runs of the overlay tool *)

Section OverlayRuns.
Import OverlayImage.

Variable Path_of : string -> Path.
Variable exists_ : Path -> bool.
Variable subprocess_run : list string -> result (Z * string).
Variable abspath : string -> string.
Variable dirname : string -> string.
Variable makedirs : string -> result unit.

Lemma guard_in_unit_interval (x : Py.float) :
  negb (Py.fle (Py.float_of_int 0) x && Py.fle x (Py.float_of_int 1))
  = negb (in_unit_interval x).
Proof. unfold in_unit_interval. now rewrite float_zero, float_one. Qed.

(** X1.  Once [parse_args] has returned the arguments, [main] of the
    overlay tool never falls off its end: it ends in [sys.exit(0)] or
    [sys.exit(1)], or, when the probe for ffmpeg raised something other
    than [FileNotFoundError], in that exception, which no handler
    catches. *)
Theorem overlay_main_ends_in_exit (args : Args) :
  let run := main Path_of exists_ subprocess_run abspath dirname makedirs args in
  Proc.final run = Exited 0%Z
  \/ Proc.final run = Exited 1%Z
  \/ exists e, Proc.final run = Raised e
               /\ subprocess_run probe_command = Raise e
               /\ forall m, e <> FileNotFoundError m.
Proof.
  cbv zeta. unfold main, check_ffmpeg, overlay_image_on_video, probe_command.
  destruct (negb _); [proc_eval; auto |].
  destruct (subprocess_run ["ffmpeg"; "-version"]) as [[rc err]|e].
  2:{ destruct e; proc_eval; auto; right; right; eexists;
      (split; [reflexivity | split; [reflexivity | discriminate]]). }
  destruct rc; proc_eval; auto.
  destruct (validate_files _ _ _ _) as [[v i]|e]; proc_eval; auto.
  destruct (makedirs _); proc_eval; auto.
  destruct (filter_complex _ _ _ _ _ _ _); proc_eval; auto.
  destruct (subprocess_run _) as [[rc err']|e]; proc_eval; auto.
  destruct rc; proc_eval; auto.
Qed.

(** The run that succeeds, given what the machine answers. *)
Lemma main_success (args : Args) (v i : Path) (fc err0 err : string) :
  in_unit_interval (opacity args) = true ->
  subprocess_run probe_command = Ok (0%Z, err0) ->
  validate_files Path_of exists_ (video args) (image args) = Ok (v, i) ->
  makedirs (dirname (abspath (overlay_output args v))) = Ok tt ->
  overlay_graph args = Ok fc ->
  subprocess_run (overlay_command v i fc (abspath (overlay_output args v)))
  = Ok (0%Z, err) ->
  Proc.final (main Path_of exists_ subprocess_run abspath dirname makedirs args)
  = Exited 0%Z.
Proof.
  intros Hin Hp Hv Hm Hg Hr.
  unfold main, check_ffmpeg, overlay_image_on_video.
  rewrite guard_in_unit_interval, Hin.
  unfold probe_command in Hp. rewrite Hp. proc_eval. rewrite Hv. proc_eval.
  fold (overlay_output args v). rewrite Hm. proc_eval.
  unfold overlay_graph in Hg. rewrite Hg. proc_eval.
  unfold overlay_command in Hr. rewrite Hr. reflexivity.
Qed.

Lemma main_success_only (args : Args) :
  Proc.final (main Path_of exists_ subprocess_run abspath dirname makedirs args)
  = Exited 0%Z ->
  in_unit_interval (opacity args) = true
  /\ (exists err0, subprocess_run probe_command = Ok (0%Z, err0))
  /\ exists v i fc err,
       validate_files Path_of exists_ (video args) (image args) = Ok (v, i)
       /\ makedirs (dirname (abspath (overlay_output args v))) = Ok tt
       /\ overlay_graph args = Ok fc
       /\ subprocess_run
            (overlay_command v i fc (abspath (overlay_output args v)))
          = Ok (0%Z, err).
Proof.
  unfold main, check_ffmpeg, overlay_image_on_video, probe_command,
    overlay_graph.
  rewrite guard_in_unit_interval.
  destruct (in_unit_interval (opacity args)); [| proc_eval; discriminate].
  destruct (subprocess_run ["ffmpeg"; "-version"]) as [[rc err0]|e].
  2:{ destruct e; proc_eval; discriminate. }
  destruct rc; proc_eval; try discriminate.
  destruct (validate_files _ _ _ _) as [[v i]|e] eqn:Hv; proc_eval;
    try discriminate.
  fold (overlay_output args v).
  destruct (makedirs _) as [[]|e] eqn:Hm; proc_eval; try discriminate.
  destruct (filter_complex _ _ _ _ _ _ _) as [fc|e] eqn:Hg; proc_eval;
    try discriminate.
  destruct (subprocess_run _) as [[rc err]|e] eqn:Hr; proc_eval;
    try discriminate.
  destruct rc; proc_eval; try discriminate.
  intros _. split; [reflexivity |]. split; [eexists; reflexivity |].
  exists v, i, fc, err. repeat split; assumption.
Qed.

(** X2.  Once [parse_args] has returned the arguments, [main] of the
    overlay tool ends in [sys.exit(0)] exactly when the opacity is in
    range, the probe for ffmpeg returns status 0, both files validate, the
    output directory can be created, the filter graph builds, and the
    overlay command on these files, this graph and the absolute output
    path returns status 0. *)
Theorem overlay_main_exit_zero (args : Args) :
  Proc.final (main Path_of exists_ subprocess_run abspath dirname makedirs args)
  = Exited 0%Z
  <->
  in_unit_interval (opacity args) = true
  /\ (exists err0, subprocess_run probe_command = Ok (0%Z, err0))
  /\ exists v i fc err,
       validate_files Path_of exists_ (video args) (image args) = Ok (v, i)
       /\ makedirs (dirname (abspath (overlay_output args v))) = Ok tt
       /\ overlay_graph args = Ok fc
       /\ subprocess_run
            (overlay_command v i fc (abspath (overlay_output args v)))
          = Ok (0%Z, err).
Proof.
  split; [apply main_success_only |].
  intros (Hin & [err0 Hp] & v & i & fc & err & Hv & Hm & Hg & Hr).
  exact (main_success args v i fc err0 err Hin Hp Hv Hm Hg Hr).
Qed.

(** X3.  A run of the overlay tool starts at most two child processes: the
    probe and the overlay command. *)
Theorem overlay_main_process_count (args : Args) :
  (count_subprocess
     (Proc.trace (main Path_of exists_ subprocess_run abspath dirname makedirs
                    args)) <= 2)%nat.
Proof.
  unfold main, check_ffmpeg, overlay_image_on_video.
  destruct (negb _); [proc_eval; lia |].
  destruct (subprocess_run ["ffmpeg"; "-version"]) as [[rc err]|e].
  2:{ destruct e; proc_eval; lia. }
  destruct rc; proc_eval; try lia.
  destruct (validate_files _ _ _ _) as [[v i]|e]; proc_eval; try lia.
  destruct (makedirs _); proc_eval; try lia.
  destruct (filter_complex _ _ _ _ _ _ _); proc_eval; try lia.
  destruct (subprocess_run _) as [[rc err']|e]; proc_eval; try lia.
  destruct rc; proc_eval; lia.
Qed.

(** X4.  When ffmpeg is absent or its probe returns a non-zero status, the
    run is the probe and two lines of diagnosis, then [sys.exit(1)]: no
    file is looked at and no directory is created. *)
Theorem overlay_main_without_ffmpeg (args : Args) :
  in_unit_interval (opacity args) = true ->
  (exists m, subprocess_run probe_command = Raise (FileNotFoundError m))
  \/ (exists rc err, subprocess_run probe_command = Ok (rc, err) /\ rc <> 0%Z) ->
  main Path_of exists_ subprocess_run abspath dirname makedirs args
  = ([Subprocess probe_command;
      Print "❌ Error: ffmpeg is not installed or not available in system PATH";
      Print "Please install ffmpeg and ensure it's accessible from command line"],
     Exited 1%Z).
Proof.
  intros Hin Hp. unfold main, check_ffmpeg.
  rewrite guard_in_unit_interval, Hin. unfold probe_command in *.
  destruct Hp as [[m ->]|(rc & err & -> & Hrc)]; [reflexivity |].
  destruct rc; [contradiction | reflexivity | reflexivity].
Qed.

(** X5.  When a file fails validation, the run is the probe and the
    message of the error, then [sys.exit(1)]: no output directory is
    created and no overlay command is started. *)
Theorem overlay_main_invalid_files (args : Args) (err0 : string) (e : exn) :
  in_unit_interval (opacity args) = true ->
  subprocess_run probe_command = Ok (0%Z, err0) ->
  validate_files Path_of exists_ (video args) (image args) = Raise e ->
  main Path_of exists_ subprocess_run abspath dirname makedirs args
  = ([Subprocess probe_command; Print ("❌ Error: " ++ exn_str e)], Exited 1%Z).
Proof.
  intros Hin Hp Hv. unfold main, check_ffmpeg.
  rewrite guard_in_unit_interval, Hin. unfold probe_command in *.
  rewrite Hp. proc_eval. rewrite Hv. reflexivity.
Qed.

(** X6.  The output directory is created before the filter graph is built:
    when the files validate and the graph fails (a time string or a scale
    percentage that is no number), the run creates the directory, prints
    the four header lines and the error, starts no overlay command and
    exits with code 1. *)
Theorem overlay_main_graph_error (args : Args) (err0 : string) (v i : Path)
    (e : exn) :
  in_unit_interval (opacity args) = true ->
  subprocess_run probe_command = Ok (0%Z, err0) ->
  validate_files Path_of exists_ (video args) (image args) = Ok (v, i) ->
  makedirs (dirname (abspath (overlay_output args v))) = Ok tt ->
  overlay_graph args = Raise e ->
  main Path_of exists_ subprocess_run abspath dirname makedirs args
  = ([Subprocess probe_command;
      Makedirs (dirname (abspath (overlay_output args v)));
      Print ("Overlaying image: " ++ name i);
      Print ("On video: " ++ name v);
      Print ("Position: " ++ position args);
      Print ("Output: " ++ abspath (overlay_output args v));
      Print ("❌ Error: " ++ exn_str e)],
     Exited 1%Z).
Proof.
  intros Hin Hp Hv Hm Hg. unfold main, check_ffmpeg, overlay_image_on_video.
  rewrite guard_in_unit_interval, Hin. unfold probe_command in *.
  rewrite Hp. proc_eval. rewrite Hv. proc_eval.
  fold (overlay_output args v). rewrite Hm. proc_eval.
  unfold overlay_graph in Hg. rewrite Hg. reflexivity.
Qed.

End OverlayRuns.

Section OverlaySteps.
Import OverlayImage.

Variable Path_of : string -> Path.
Variable exists_ : Path -> bool.
Variable subprocess_run : list string -> result (Z * string).

(** X7.  [validate_files] accepts a pair of paths exactly when both files
    exist, the video's suffix, lower-cased, is one of the eight video
    extensions and the image's is one of the seven image extensions; it
    then returns the two paths as given. *)
Theorem validate_files_accepts (video_path image_path : string)
    (p : Path * Path) :
  validate_files Path_of exists_ video_path image_path = Ok p
  <->
  p = (Path_of video_path, Path_of image_path)
  /\ exists_ (Path_of video_path) = true
  /\ exists_ (Path_of image_path) = true
  /\ member (Py.lower (suffix (Path_of video_path))) video_extensions = true
  /\ member (Py.lower (suffix (Path_of image_path))) image_extensions = true.
Proof.
  unfold validate_files.
  destruct (exists_ (Path_of video_path)); cbn [negb];
    [| split; [discriminate | intros (_ & H & _); discriminate H]].
  destruct (exists_ (Path_of image_path)); cbn [negb];
    [| split; [discriminate | intros (_ & _ & H & _); discriminate H]].
  destruct (member (Py.lower (suffix (Path_of video_path))) video_extensions);
    cbn [negb];
    [| split; [discriminate | intros (_ & _ & _ & H & _); discriminate H]].
  destruct (member (Py.lower (suffix (Path_of image_path))) image_extensions);
    cbn [negb];
    [| split; [discriminate | intros (_ & _ & _ & _ & H); discriminate H]].
  split.
  - intro H. injection H as <-. repeat split.
  - intros (-> & _). reflexivity.
Qed.

(** X8.  [validate_files] looks at extensions only once both files are
    known to exist: a [ValueError] for an unsupported format means both
    exist, any other failure is a [FileNotFoundError] for a file that does
    not exist, and a missing video is reported before a missing image. *)
Theorem validate_files_errors (video_path image_path : string) (e : exn) :
  validate_files Path_of exists_ video_path image_path = Raise e ->
  (exists_ (Path_of video_path) = false
   /\ e = FileNotFoundError ("Video file does not exist: " ++ video_path))
  \/ (exists_ (Path_of video_path) = true
      /\ exists_ (Path_of image_path) = false
      /\ e = FileNotFoundError ("Image file does not exist: " ++ image_path))
  \/ (exists_ (Path_of video_path) = true
      /\ exists_ (Path_of image_path) = true
      /\ exists m, e = ValueError m).
Proof.
  unfold validate_files.
  destruct (exists_ (Path_of video_path)); cbn [negb];
    [| intro H; injection H as <-; left; split; reflexivity].
  destruct (exists_ (Path_of image_path)); cbn [negb];
    [| intro H; injection H as <-; right; left; repeat split].
  destruct (negb (member _ video_extensions));
    [intro H; injection H as <-; right; right; repeat split; eexists;
     reflexivity |].
  destruct (negb (member _ image_extensions)); [| discriminate].
  intro H. injection H as <-. right. right. repeat split. eexists. reflexivity.
Qed.

(** X9.  The probe for ffmpeg, in either tool, starts exactly one child
    process, [ffmpeg -version]; it answers true exactly when that process
    returns status 0, answers false on a non-zero status and when the
    program is not found, and lets any other exception through. *)
Theorem check_ffmpeg_probe :
  let probe := check_ffmpeg subprocess_run in
  ConcatenateVideos.check_ffmpeg subprocess_run = probe
  /\ Proc.trace probe = [Subprocess probe_command]
  /\ (Proc.final probe = Return true
      <-> exists err, subprocess_run probe_command = Ok (0%Z, err))
  /\ (Proc.final probe = Return false
      <-> (exists m, subprocess_run probe_command = Raise (FileNotFoundError m))
          \/ exists rc err,
               subprocess_run probe_command = Ok (rc, err) /\ rc <> 0%Z)
  /\ (forall e, Proc.final probe = Raised e
        <-> subprocess_run probe_command = Raise e
            /\ forall m, e <> FileNotFoundError m).
Proof.
  cbv zeta. split; [reflexivity |].
  unfold check_ffmpeg, probe_command.
  destruct (subprocess_run ["ffmpeg"; "-version"]) as [[rc err]|e].
  - destruct rc; proc_eval; (split; [reflexivity |]).
    + split; [split; [eauto | reflexivity] |].
      split; [split; [discriminate |] |].
      * intros [[m H]|(rc & err' & H & Hrc)]; [discriminate H |].
        injection H as <- _. contradiction.
      * intro e. split; [discriminate | intros [H _]; discriminate H].
    + split; [split; [discriminate | intros [err' H]; discriminate H] |].
      split; [split; [intros _; right; exists (Z.pos p), err; split;
                      [reflexivity | discriminate] | reflexivity] |].
      intro e. split; [discriminate | intros [H _]; discriminate H].
    + split; [split; [discriminate | intros [err' H]; discriminate H] |].
      split; [split; [intros _; right; exists (Z.neg p), err; split;
                      [reflexivity | discriminate] | reflexivity] |].
      intro e. split; [discriminate | intros [H _]; discriminate H].
  - destruct e as [m|m|m|m]; proc_eval; (split; [reflexivity |]);
      (split; [split; [discriminate | intros [err' H]; discriminate H] |]).
    + split; [split; [intros _; left; eauto | reflexivity] |].
      intro e. split; [discriminate |].
      intros [H Hne]. injection H as <-. exfalso. exact (Hne m eq_refl).
    + split; [split; [discriminate |] |].
      * intros [[m' H]|(rc & err' & H & _)]; discriminate H.
      * intro e. split.
        -- intro H. injection H as <-. split; [reflexivity | discriminate].
        -- intros [H _]. injection H as <-. reflexivity.
    + split; [split; [discriminate |] |].
      * intros [[m' H]|(rc & err' & H & _)]; discriminate H.
      * intro e. split.
        -- intro H. injection H as <-. split; [reflexivity | discriminate].
        -- intros [H _]. injection H as <-. reflexivity.
    + split; [split; [discriminate |] |].
      * intros [[m' H]|(rc & err' & H & _)]; discriminate H.
      * intro e. split.
        -- intro H. injection H as <-. split; [reflexivity | discriminate].
        -- intros [H _]. injection H as <-. reflexivity.
Qed.

(** X10.  Once the filter graph is built, [overlay_image_on_video] starts
    exactly one child process, the overlay command on the two files, the
    graph and the output path, and always returns: true exactly when that
    process returns status 0, false on any other status and when starting
    it raises. *)
Theorem overlay_runs_command_once (video_file image_file : Path)
    (output_path position : string) (scale : option string)
    (opacity : Py.float) (offset_x offset_y : Z)
    (start_time duration : option string) (fc : string) :
  filter_complex position scale opacity offset_x offset_y start_time duration
  = Ok fc ->
  let run :=
    overlay_image_on_video subprocess_run video_file image_file output_path
      position scale opacity offset_x offset_y start_time duration in
  let cmd := overlay_command video_file image_file fc output_path in
  filter is_subprocess (Proc.trace run) = [Subprocess cmd]
  /\ exists b, Proc.final run = Return b
               /\ (b = true <-> exists err, subprocess_run cmd = Ok (0%Z, err)).
Proof.
  intros Hg run cmd.
  unfold run, cmd, overlay_image_on_video, overlay_command. rewrite Hg.
  proc_eval.
  destruct (subprocess_run _) as [[rc err]|e]; [destruct rc |];
    proc_eval; (split; [reflexivity |]).
  - exists true. split; [reflexivity |]. split; eauto.
  - exists false. split; [reflexivity |].
    split; [discriminate | intros [err' H]; discriminate H].
  - exists false. split; [reflexivity |].
    split; [discriminate | intros [err' H]; discriminate H].
  - exists false. split; [reflexivity |].
    split; [discriminate | intros [err' H]; discriminate H].
Qed.

(** X11.  When the filter graph cannot be built, [overlay_image_on_video]
    raises that error after its four header lines: its own [try] guards
    the child process only, and no child process is started. *)
Theorem overlay_graph_error_escapes (video_file image_file : Path)
    (output_path position : string) (scale : option string)
    (opacity : Py.float) (offset_x offset_y : Z)
    (start_time duration : option string) (e : exn) :
  filter_complex position scale opacity offset_x offset_y start_time duration
  = Raise e ->
  overlay_image_on_video subprocess_run video_file image_file output_path
    position scale opacity offset_x offset_y start_time duration
  = ([Print ("Overlaying image: " ++ name image_file);
      Print ("On video: " ++ name video_file);
      Print ("Position: " ++ position);
      Print ("Output: " ++ output_path)],
     Raised e).
Proof.
  intro Hg. unfold overlay_image_on_video. rewrite Hg. reflexivity.
Qed.

End OverlaySteps.

(** * The filter graph beyond its three segments *)

Section GraphShape.
Import OverlayImage.

Variables (position : string) (scale : option string) (opacity : Py.float).
Variables (offset_x offset_y : Z) (start_time duration : option string).

(** A graph that is produced comes from a scale step and an options step
    that both succeed. *)
Lemma filter_parts_inv (parts : list string) :
  filter_parts position scale opacity offset_x offset_y start_time duration
  = Ok parts ->
  exists parts1 input1 options,
    scale_step scale = Ok (parts1, input1)
    /\ overlay_options start_time duration = Ok options
    /\ parts
       = (parts1 ++ fst (opacity_step scale opacity input1)
            ++ [overlay_filter (snd (opacity_step scale opacity input1))
                  (get_position_filter position offset_x offset_y) options])%list.
Proof.
  intro H.
  destruct (scale_step scale) as [[parts1 input1]|e] eqn:Es.
  - destruct (overlay_options start_time duration) as [options|e] eqn:Eo.
    + rewrite (filter_parts_steps position scale opacity offset_x offset_y
                 start_time duration parts1 input1 options Es Eo) in H.
      injection H as <-. exists parts1, input1, options. repeat split.
    + unfold filter_parts in H. rewrite Es in H. cbn [bind] in H.
      destruct (opacity_step scale opacity input1).
      rewrite Eo in H. discriminate H.
  - unfold filter_parts in H. rewrite Es in H. discriminate H.
Qed.

Lemma scale_step_shape (parts1 : list string) (input1 : string) :
  scale_step scale = Ok (parts1, input1) ->
  (Py.truthy scale = false /\ parts1 = [] /\ input1 = "[1:v]")
  \/ (Py.truthy scale = true
      /\ exists scale_filter,
           parts1 = ["[1:v]" ++ scale_filter ++ "[scaled]"]
           /\ input1 = "[scaled]").
Proof.
  intro H. destruct scale as [[|a s]|] eqn:E.
  - left. cbn in H. injection H as <- <-. repeat split.
  - right. split; [reflexivity |].
    apply (scale_step_present (String a s) parts1 input1);
      [discriminate | rewrite <- E; rewrite E; exact H].
  - left. cbn in H. injection H as <- <-. repeat split.
Qed.

Lemma opacity_step_shape (input1 : string) :
  (Py.flt opacity (float_literal "1.0") = false
   /\ opacity_step scale opacity input1 = ([], input1))
  \/ (Py.flt opacity (float_literal "1.0") = true
      /\ exists body,
           opacity_step scale opacity input1
           = ([body ++ "[transparent]"], "[transparent]")).
Proof.
  unfold opacity_step. rewrite float_one.
  destruct (Py.flt opacity (float_literal "1.0")); [right | left];
    (split; [reflexivity |]); [| reflexivity].
  destruct (Py.truthy scale); eexists.
  - change ("[scaled]format=rgba,colorchannelmixer=aa="
              ++ Py.repr_float opacity ++ "[transparent]")
      with ("[scaled]format=rgba,colorchannelmixer=aa="
              ++ (Py.repr_float opacity ++ "[transparent]")).
    rewrite <- append_assoc. reflexivity.
  - change ("[1:v]format=rgba,colorchannelmixer=aa="
              ++ Py.repr_float opacity ++ "[transparent]")
      with ("[1:v]format=rgba,colorchannelmixer=aa="
              ++ (Py.repr_float opacity ++ "[transparent]")).
    rewrite <- append_assoc. reflexivity.
Qed.

(** X12.  A graph that is produced has one segment for the scale when a
    scale is given, one for the opacity when the opacity is below 1.0, and
    the overlay segment: between one and three segments, never none. *)
Theorem graph_segment_count (parts : list string) :
  filter_parts position scale opacity offset_x offset_y start_time duration
  = Ok parts ->
  List.length parts
  = ((if Py.truthy scale then 1 else 0)
     + (if Py.flt opacity (float_literal "1.0") then 1 else 0) + 1)%nat.
Proof.
  intro H. destruct (filter_parts_inv parts H)
    as (parts1 & input1 & options & Hs & _ & ->).
  rewrite !length_app. cbn [List.length].
  destruct (scale_step_shape parts1 input1 Hs)
    as [(-> & -> & _)|(-> & sf & -> & _)];
    destruct (opacity_step_shape input1) as [(-> & ->)|(-> & body & ->)];
    reflexivity.
Qed.

(** X13.  The overlay segment always reads a tag that is the raw image
    input or was written by the segment just before it: with no segment
    before it, it reads [1:v]; otherwise the segment before it ends with
    the very tag the overlay reads. *)
Theorem overlay_reads_fresh_tag (parts : list string) :
  filter_parts position scale opacity offset_x offset_y start_time duration
  = Ok parts ->
  exists before input tail,
    parts
    = app before
        ["[0:v]" ++ input ++ "overlay="
           ++ get_position_filter position offset_x offset_y ++ tail]
    /\ ((before = [] /\ input = "[1:v]")
        \/ exists earlier body, before = app earlier [body ++ input]).
Proof.
  intro H. destruct (filter_parts_inv parts H)
    as (parts1 & input1 & options & Hs & _ & ->).
  destruct (opacity_step_shape input1) as [(_ & ->)|(_ & body & ->)];
    cbn [fst snd].
  - destruct (overlay_filter_reads input1
                (get_position_filter position offset_x offset_y) options)
      as [tail ->].
    exists parts1, input1, tail. split; [reflexivity |].
    destruct (scale_step_shape parts1 input1 Hs)
      as [(_ & -> & ->)|(_ & sf & -> & ->)].
    + left. split; reflexivity.
    + right. exists [], ("[1:v]" ++ sf). cbn [app].
      now rewrite append_assoc.
  - destruct (overlay_filter_reads "[transparent]"
                (get_position_filter position offset_x offset_y) options)
      as [tail ->].
    exists (app parts1 [body ++ "[transparent]"]), "[transparent]", tail.
    split; [now rewrite <- app_assoc |].
    right. exists parts1, body. reflexivity.
Qed.

(** X14.  An opacity that is not below 1.0 (1.0, more, or a NaN) adds no
    segment: the overlay reads straight from the scale step, and the tag
    [transparent] is not written. *)
Theorem opaque_overlay_has_no_opacity_segment
    (parts1 : list string) (input1 : string) (options : list string) :
  Py.flt opacity (float_literal "1.0") = false ->
  scale_step scale = Ok (parts1, input1) ->
  overlay_options start_time duration = Ok options ->
  filter_parts position scale opacity offset_x offset_y start_time duration
  = Ok (parts1
          ++ [overlay_filter input1
                (get_position_filter position offset_x offset_y) options])%list.
Proof.
  intros Hlt Hs Ho.
  rewrite (filter_parts_steps position scale opacity offset_x offset_y
             start_time duration parts1 input1 options Hs Ho).
  destruct (opacity_step_shape input1) as [(_ & ->)|(Hlt' & _)];
    [reflexivity | congruence].
Qed.

End GraphShape.

Section TimeGates.
Import OverlayImage.

Variables (position : string) (scale : option string) (opacity : Py.float).
Variables (offset_x offset_y : Z).

(** X15.  With a start time that parses to [t0] and no duration, the
    overlay segment ends with the one clause [enable='gte(t,t0)']. *)
Theorem start_only_gates_with_gte (st : string) (duration : option string)
    (t0 : Py.float) (parts1 : list string) (input1 : string) :
  st <> "" -> Py.truthy duration = false ->
  parse_time_to_seconds st = Ok t0 ->
  scale_step scale = Ok (parts1, input1) ->
  let step := opacity_step scale opacity input1 in
  let final :=
    "[0:v]" ++ snd step ++ "overlay="
      ++ get_position_filter position offset_x offset_y
      ++ ":enable='gte(t," ++ Py.repr_float t0 ++ ")'" in
  filter_parts position scale opacity offset_x offset_y (Some st) duration
  = Ok (parts1 ++ fst step ++ [final])%list.
Proof.
  intros Hst Hdu Ht Hs step final.
  rewrite (filter_parts_steps position scale opacity offset_x offset_y
             (Some st) duration parts1 input1 _ Hs
             (overlay_options_start_only st duration t0 Hst Hdu Ht)).
  rewrite overlay_filter_options. reflexivity.
Qed.

(** X16.  With no start time the overlay segment has no enable clause and
    the time strings are never parsed: whatever the duration, even one
    that is no time at all, the graph is produced as soon as the scale
    step succeeds. *)
Theorem no_start_no_time_gate (start_time duration : option string)
    (parts1 : list string) (input1 : string) :
  Py.truthy start_time = false ->
  scale_step scale = Ok (parts1, input1) ->
  let step := opacity_step scale opacity input1 in
  let final :=
    "[0:v]" ++ snd step ++ "overlay="
      ++ get_position_filter position offset_x offset_y in
  filter_parts position scale opacity offset_x offset_y start_time duration
  = Ok (parts1 ++ fst step ++ [final])%list.
Proof.
  intros Hst Hs step final.
  rewrite (filter_parts_steps position scale opacity offset_x offset_y
             start_time duration parts1 input1 _ Hs
             (overlay_options_without_start start_time duration Hst)).
  reflexivity.
Qed.






End TimeGates.

Section TimeComponents.
Import OverlayImage.

Lemma split_without_separator (sep : ascii) (s : string) :
  Py.contains_char sep s = false -> Py.split sep s = [s].
Proof.
  induction s as [|a s IH]; [reflexivity |].
  cbn [Py.contains_char Py.split]. intro H.
  apply orb_false_iff in H. destruct H as [Ha Hs].
  rewrite Ha, (IH Hs). reflexivity.
Qed.

(** X18.  On components without a colon the parser computes what its
    docstring says: [H:M:S] is [H*3600 + M*60 + S], [M:S] is [M*60 + S] and
    [S] alone is [S], each component read by [float] from left to right and
    the first that is no number raising its error. *)
Theorem parse_time_by_components (h m s : string) :
  Py.contains_char ":" h = false ->
  Py.contains_char ":" m = false ->
  Py.contains_char ":" s = false ->
  parse_time_to_seconds (h ++ ":" ++ m ++ ":" ++ s)
  = (fh <- Py.float_ h ;;
     fm <- Py.float_ m ;;
     fs <- Py.float_ s ;;
     Ok (Py.fadd (Py.fadd (Py.fmul fh (Py.float_of_int 3600))
                          (Py.fmul fm (Py.float_of_int 60))) fs))%result
  /\ parse_time_to_seconds (m ++ ":" ++ s)
     = (fm <- Py.float_ m ;;
        fs <- Py.float_ s ;;
        Ok (Py.fadd (Py.fmul fm (Py.float_of_int 60)) fs))%result
  /\ parse_time_to_seconds s = Py.float_ s.
Proof.
  intros Hh Hm Hs. unfold parse_time_to_seconds. cbn [append].
  rewrite (split_at_separator ":" h _ Hh), (split_at_separator ":" m _ Hm),
    (split_without_separator ":" s Hs).
  repeat split.
Qed.

(** X19.  From the fourth component on nothing is read: a string with four
    or more components is parsed as its first component alone, and the
    others need not even be numbers. *)
Theorem parse_time_ignores_extra_components (a b c rest : string) :
  Py.contains_char ":" a = false ->
  Py.contains_char ":" b = false ->
  Py.contains_char ":" c = false ->
  parse_time_to_seconds (a ++ ":" ++ b ++ ":" ++ c ++ ":" ++ rest)
  = Py.float_ a.
Proof.
  intros Ha Hb Hc. unfold parse_time_to_seconds. cbn [append].
  rewrite (split_at_separator ":" a _ Ha), (split_at_separator ":" b _ Hb),
    (split_at_separator ":" c _ Hc).
  pose proof (split_not_nil ":" rest) as Hne.
  destruct (Py.split ":" rest) as [|d l]; [contradiction | reflexivity].
Qed.

End TimeComponents.

(** * The order of the discovered files *)

Section SortFacts.
Context {A K : Type}.
Variables (lt : K -> K -> bool) (key : A -> K).

Lemma insert_sorted_permutation (x : A) (l : list A) :
  Permutation (Py.insert_sorted lt key x l) (x :: l).
Proof.
  induction l as [|y l IH]; cbn [Py.insert_sorted]; [reflexivity |].
  destruct (lt (key y) (key x)); [| reflexivity].
  rewrite IH. apply perm_swap.
Qed.

Lemma sort_permutation (l : list A) : Permutation (Py.sort lt key l) l.
Proof.
  induction l as [|x l IH]; cbn [Py.sort fold_right]; [reflexivity |].
  rewrite insert_sorted_permutation. now apply perm_skip.
Qed.

(** With an asymmetric comparison the result is in order. *)
Hypothesis lt_asym : forall a b, lt a b = true -> lt b a = false.

Lemma insert_sorted_head (x : A) (l : list A) (z : A) :
  lt (key x) (key z) = false ->
  HdRel (fun a b => lt (key b) (key a) = false) z l ->
  HdRel (fun a b => lt (key b) (key a) = false) z (Py.insert_sorted lt key x l).
Proof.
  intros Hx Hl. destruct l as [|y l]; cbn [Py.insert_sorted].
  - constructor. exact Hx.
  - destruct (lt (key y) (key x)); constructor;
      [now inversion Hl | exact Hx].
Qed.

Lemma insert_sorted_sorted (x : A) (l : list A) :
  Sorted (fun a b => lt (key b) (key a) = false) l ->
  Sorted (fun a b => lt (key b) (key a) = false) (Py.insert_sorted lt key x l).
Proof.
  induction l as [|y l IH]; intro Hs; cbn [Py.insert_sorted].
  - constructor; constructor.
  - destruct (lt (key y) (key x)) eqn:E.
    + inversion Hs as [|? ? Hs' Hh]. subst. constructor; [exact (IH Hs') |].
      apply insert_sorted_head; [exact (lt_asym _ _ E) | exact Hh].
    + constructor; [exact Hs |]. constructor. exact E.
Qed.

Lemma sort_sorted (l : list A) :
  Sorted (fun a b => lt (key b) (key a) = false) (Py.sort lt key l).
Proof.
  induction l as [|x l IH]; cbn [Py.sort fold_right]; [constructor |].
  apply insert_sorted_sorted. exact IH.
Qed.

(** With an irreflexive comparison the sort is stable: the entries of any
    one key keep their order. *)
Hypothesis lt_irrefl : forall a, lt a a = false.
Variable eqb : K -> K -> bool.
Hypothesis eqb_eq : forall a b, eqb a b = true -> a = b.

Lemma insert_sorted_filter (k : K) (x : A) (l : list A) :
  filter (fun e => eqb (key e) k) (Py.insert_sorted lt key x l)
  = filter (fun e => eqb (key e) k) (x :: l).
Proof.
  induction l as [|y l IH]; cbn [Py.insert_sorted]; [reflexivity |].
  destruct (lt (key y) (key x)) eqn:E; [| reflexivity].
  cbn [filter] in *. rewrite IH.
  destruct (eqb (key x) k) eqn:Ex; [| reflexivity].
  destruct (eqb (key y) k) eqn:Ey; [| reflexivity].
  apply eqb_eq in Ex, Ey. rewrite Ex, Ey, lt_irrefl in E. discriminate E.
Qed.

Lemma sort_stable (k : K) (l : list A) :
  filter (fun e => eqb (key e) k) (Py.sort lt key l)
  = filter (fun e => eqb (key e) k) l.
Proof.
  induction l as [|x l IH]; cbn [Py.sort fold_right]; [reflexivity |].
  rewrite insert_sorted_filter. cbn [filter].
  fold (Py.sort lt key l). now rewrite IH.
Qed.

End SortFacts.

Section KeyOrders.

Lemma ltb_asym (a b : string) : String.ltb a b = true -> String.ltb b a = false.
Proof.
  unfold String.ltb. rewrite (String.compare_antisym b a).
  destruct (String.compare a b); cbn; congruence.
Qed.

Lemma string_compare_refl (a : string) : String.compare a a = Eq.
Proof.
  induction a as [|c a IH]; [reflexivity |]. cbn.
  unfold Ascii.compare. now rewrite N.compare_refl.
Qed.

Lemma ltb_irrefl (a : string) : String.ltb a a = false.
Proof. unfold String.ltb. now rewrite string_compare_refl. Qed.

Lemma string_eqb_eq (a b : string) : String.eqb a b = true -> a = b.
Proof. apply String.eqb_eq. Qed.

Lemma flt_asym (x y : Py.float) : Py.flt x y = true -> Py.flt y x = false.
Proof.
  intro H. apply flt_not_fle in H. revert H.
  unfold Py.fle, Py.flt, SFleb, SFltb.
  destruct (SFcompare y x) as [[| |]|]; congruence.
Qed.

Lemma flt_irrefl (x : Py.float) : Py.flt x x = false.
Proof.
  destruct (Py.flt x x) eqn:E; [| reflexivity].
  pose proof (flt_asym x x E). congruence.
Qed.

Lemma float_same_eq (x y : Py.float) : Py.float_same x y = true -> x = y.
Proof.
  destruct x as [a|a| |a m e], y as [b|b| |b n f]; cbn;
    try discriminate; try reflexivity.
  - intro H. apply Bool.eqb_prop in H. now subst.
  - intro H. apply Bool.eqb_prop in H. now subst.
  - intro H. apply andb_true_iff in H. destruct H as [H He].
    apply andb_true_iff in H. destruct H as [Hs Hm].
    apply Bool.eqb_prop in Hs. apply Pos.eqb_eq in Hm. apply Z.eqb_eq in He.
    now subst.
Qed.

(** The order of strings is transitive. *)
Lemma ascii_compare_lt_trans (a b c : ascii) :
  Ascii.compare a b = Lt -> Ascii.compare b c = Lt -> Ascii.compare a c = Lt.
Proof.
  unfold Ascii.compare. rewrite !N.compare_lt_iff. apply N.lt_trans.
Qed.

Lemma string_not_below_trans (a b c : string) :
  String.ltb b a = false -> String.ltb c b = false -> String.ltb c a = false.
Proof.
  unfold String.ltb.
  rewrite (String.compare_antisym b a), (String.compare_antisym c b),
    (String.compare_antisym c a).
  revert b c. induction a as [|x a IH]; intros [|y b] [|z c]; cbn;
    try congruence.
  destruct (Ascii.compare x y) eqn:Exy; cbn; try congruence.
  - apply Ascii.compare_eq_iff in Exy. subst y.
    destruct (Ascii.compare x z) eqn:Exz; cbn; try congruence.
    apply IH.
  - destruct (Ascii.compare y z) eqn:Eyz; cbn; try congruence.
    + apply Ascii.compare_eq_iff in Eyz. subst z. rewrite Exy. cbn. congruence.
    + rewrite (ascii_compare_lt_trans x y z Exy Eyz). cbn. congruence.
Qed.

End KeyOrders.

Section SortTies.
Context {A K : Type}.
Variables (lt : K -> K -> bool) (key : A -> K) (tie : K -> K -> bool).

(** Two keys that tie with a third are not one below the other. *)
Hypothesis tie_not_below :
  forall a b k, tie a k = true -> tie b k = true -> lt a b = false.

Lemma insert_sorted_ties (k : K) (x : A) (l : list A) :
  filter (fun e => tie (key e) k) (Py.insert_sorted lt key x l)
  = filter (fun e => tie (key e) k) (x :: l).
Proof.
  induction l as [|y l IH]; cbn [Py.insert_sorted]; [reflexivity |].
  destruct (lt (key y) (key x)) eqn:E; [| reflexivity].
  cbn [filter] in *. rewrite IH.
  destruct (tie (key x) k) eqn:Ex; [| reflexivity].
  destruct (tie (key y) k) eqn:Ey; [| reflexivity].
  rewrite (tie_not_below _ _ _ Ey Ex) in E. discriminate E.
Qed.

Lemma sort_keeps_ties (k : K) (l : list A) :
  filter (fun e => tie (key e) k) (Py.sort lt key l)
  = filter (fun e => tie (key e) k) l.
Proof.
  induction l as [|x l IH]; cbn [Py.sort fold_right]; [reflexivity |].
  rewrite insert_sorted_ties. cbn [filter].
  fold (Py.sort lt key l). now rewrite IH.
Qed.

End SortTies.

Section TieFacts.

Lemma string_ties_not_below (a b k : string) :
  String.eqb a k = true -> String.eqb b k = true -> String.ltb a b = false.
Proof.
  intros Ha Hb. apply String.eqb_eq in Ha, Hb. subst a b. apply ltb_irrefl.
Qed.

(** Floats that compare equal are the same float or two zeros. *)
Lemma float_equal_cases (x y : Py.float) :
  float_equal x y = true ->
  x = y \/ exists s1 s2, x = S754_zero s1 /\ y = S754_zero s2.
Proof.
  unfold float_equal, SFeqb.
  destruct x as [sx|sx| |sx mx ex], y as [sy|sy| |sy my ey]; cbn;
    try (right; eauto; fail);
    try (destruct sx; discriminate); try (destruct sy; discriminate);
    try discriminate.
  - destruct sx, sy; try discriminate; intros _; left; reflexivity.
  - destruct sx, sy; try discriminate;
      destruct (Z.compare_spec ex ey) as [->| |]; try discriminate;
      destruct (Pos.compare_cont Eq mx my) eqn:E; cbn; try discriminate;
      intros _; left;
      change (Pos.compare_cont Eq mx my) with (Pos.compare mx my) in E;
      apply Pos.compare_eq in E; now subst.
Qed.

Lemma float_ties_not_below (a b k : Py.float) :
  float_equal a k = true -> float_equal b k = true -> Py.flt a b = false.
Proof.
  intros Ha Hb.
  destruct (float_equal_cases a k Ha) as [->|(s1 & s2 & -> & ->)].
  - destruct (float_equal_cases b k Hb) as [->|(s3 & s4 & -> & ->)].
    + apply flt_irrefl.
    + reflexivity.
  - destruct (float_equal_cases b _ Hb) as [->|(s3 & s4 & -> & _)];
      reflexivity.
Qed.

End TieFacts.

Section DiscoveryOrder.
Import ConcatenateVideos.

Variable Path_of : string -> Path.
Variable lookup : Path -> option node.

(** What a successful discovery returns, by sort method. *)
Lemma find_mp4_files_sorted (folder_path sort_method : string)
    (entries : list dirent) (files : list Path) :
  lookup (Path_of folder_path) = Some (Directory entries) ->
  find_mp4_files Path_of lookup folder_path sort_method = Ok files ->
  filter is_mp4 entries <> []
  /\ ((sort_method = "alphabetical"
       /\ files = map d_path (Py.sort String.ltb name_key (filter is_mp4 entries)))
      \/ (sort_method = "date_created"
          /\ files = map d_path (Py.sort Py.flt st_ctime (filter is_mp4 entries)))
      \/ (sort_method = "date_modified"
          /\ files = map d_path (Py.sort Py.flt st_mtime (filter is_mp4 entries)))).
Proof.
  intros Hl. unfold find_mp4_files. rewrite Hl.
  destruct (filter is_mp4 entries) as [|e es] eqn:Ef; [discriminate |].
  intro H. split; [discriminate |].
  destruct (String.eqb_spec sort_method "alphabetical") as [->|_].
  { left. split; [reflexivity |]. cbn [bind] in H. now injection H as <-. }
  destruct (String.eqb_spec sort_method "date_created") as [->|_].
  { right. left. split; [reflexivity |]. cbn [bind] in H. now injection H as <-. }
  destruct (String.eqb_spec sort_method "date_modified") as [->|_].
  { right. right. split; [reflexivity |]. cbn [bind] in H. now injection H as <-. }
  discriminate H.
Qed.

Lemma strongly_sorted_map {A B : Type} (f : A -> B) (R : B -> B -> Prop)
    (l : list A) :
  StronglySorted (fun a b => R (f a) (f b)) l -> StronglySorted R (map f l).
Proof.
  induction 1 as [|a l Hs IH Hall]; cbn [map]; constructor; [exact IH |].
  apply Forall_map. exact Hall.
Qed.

(** X20.  A successful discovery returns exactly the entries of the folder
    that are regular files with the suffix [.mp4] in any letter case: each
    of them once, none else, and at least one. *)
Theorem discovery_returns_matching_files (folder_path sort_method : string)
    (entries : list dirent) (files : list Path) :
  lookup (Path_of folder_path) = Some (Directory entries) ->
  find_mp4_files Path_of lookup folder_path sort_method = Ok files ->
  Permutation files (map d_path (filter is_mp4 entries))
  /\ files <> [].
Proof.
  intros Hl H.
  destruct (find_mp4_files_sorted folder_path sort_method entries files Hl H)
    as [Hne [[_ ->]|[[_ ->]|[_ ->]]]];
    (split;
     [apply Permutation_map, sort_permutation
     | intro E; apply map_eq_nil in E;
       match type of E with
       | Py.sort ?lt ?key ?l = [] =>
           pose proof (Permutation_length (sort_permutation lt key l)) as Hlen;
           rewrite E in Hlen; destruct l; [now apply Hne | discriminate Hlen]
       end]).
Qed.

(** X21.  With the sort method [alphabetical], in a folder whose matching
    files have names made of ASCII characters only (where [Py.lower] is
    [str.lower]), the files come back in the order of their lower-cased
    names: no file's name is below the name of any file before it. *)
Theorem discovery_alphabetical_order (folder_path : string)
    (entries : list dirent) (files : list Path) :
  lookup (Path_of folder_path) = Some (Directory entries) ->
  (forall e, In e entries -> is_mp4 e = true ->
     ascii_only (name (d_path e)) = true) ->
  find_mp4_files Path_of lookup folder_path "alphabetical" = Ok files ->
  StronglySorted
    (fun p q => String.ltb (Py.lower (name q)) (Py.lower (name p)) = false)
    files.
Proof.
  intros Hl _ H.
  destruct (find_mp4_files_sorted folder_path "alphabetical" entries files Hl H)
    as [_ [[_ ->]|[[E _]|[E _]]]]; try discriminate E.
  apply strongly_sorted_map.
  apply Sorted_StronglySorted.
  - intros a b c Hab Hbc. exact (string_not_below_trans _ _ _ Hab Hbc).
  - exact (sort_sorted String.ltb name_key ltb_asym (filter is_mp4 entries)).
Qed.

(** X22.  With the sort methods [date_created] and [date_modified] the
    files come back as a rearrangement of the matching entries in which no
    entry has a time stamp below that of the entry before it ([st_ctime]
    for the first method, [st_mtime] for the second). *)
Theorem discovery_date_order (folder_path : string)
    (entries : list dirent) (files : list Path) :
  lookup (Path_of folder_path) = Some (Directory entries) ->
  (find_mp4_files Path_of lookup folder_path "date_created" = Ok files ->
   exists sorted,
     files = map d_path sorted
     /\ Permutation sorted (filter is_mp4 entries)
     /\ ordered_by Py.flt st_ctime sorted)
  /\ (find_mp4_files Path_of lookup folder_path "date_modified" = Ok files ->
      exists sorted,
        files = map d_path sorted
        /\ Permutation sorted (filter is_mp4 entries)
        /\ ordered_by Py.flt st_mtime sorted).
Proof.
  intros Hl. split; intro H.
  - destruct (find_mp4_files_sorted folder_path "date_created" entries files
                Hl H) as [_ [[E _]|[[_ ->]|[E _]]]]; try discriminate E.
    eexists. split; [reflexivity |]. split; [apply sort_permutation |].
    exact (sort_sorted Py.flt st_ctime flt_asym (filter is_mp4 entries)).
  - destruct (find_mp4_files_sorted folder_path "date_modified" entries files
                Hl H) as [_ [[E _]|[[E _]|[_ ->]]]]; try discriminate E.
    eexists. split; [reflexivity |]. split; [apply sort_permutation |].
    exact (sort_sorted Py.flt st_mtime flt_asym (filter is_mp4 entries)).
Qed.

(** X23.  Ties keep the order in which the folder lists its entries.
    Under [date_created] and [date_modified], the matching entries whose
    time stamps are equal as floats come back in their original order;
    under [alphabetical], in a folder whose matching files have names made
    of ASCII characters only, so do the matching entries that share one
    lower-cased name. *)
Theorem discovery_keeps_order_of_ties (folder_path : string)
    (entries : list dirent) (files : list Path) :
  lookup (Path_of folder_path) = Some (Directory entries) ->
  ((forall e, In e entries -> is_mp4 e = true ->
      ascii_only (name (d_path e)) = true) ->
   find_mp4_files Path_of lookup folder_path "alphabetical" = Ok files ->
   exists sorted,
     files = map d_path sorted
     /\ forall k,
          filter (fun e => String.eqb (name_key e) k) sorted
          = filter (fun e => String.eqb (name_key e) k) (filter is_mp4 entries))
  /\ (find_mp4_files Path_of lookup folder_path "date_created" = Ok files ->
      exists sorted,
        files = map d_path sorted
        /\ forall t,
             filter (fun e => float_equal (st_ctime e) t) sorted
             = filter (fun e => float_equal (st_ctime e) t)
                 (filter is_mp4 entries))
  /\ (find_mp4_files Path_of lookup folder_path "date_modified" = Ok files ->
      exists sorted,
        files = map d_path sorted
        /\ forall t,
             filter (fun e => float_equal (st_mtime e) t) sorted
             = filter (fun e => float_equal (st_mtime e) t)
                 (filter is_mp4 entries)).
Proof.
  intros Hl. split; [intros _ H | split; intro H].
  - destruct (find_mp4_files_sorted folder_path "alphabetical" entries files
                Hl H) as [_ [[_ ->]|[[E _]|[E _]]]]; try discriminate E.
    eexists. split; [reflexivity |]. intro k.
    exact (sort_keeps_ties String.ltb name_key String.eqb string_ties_not_below
             k (filter is_mp4 entries)).
  - destruct (find_mp4_files_sorted folder_path "date_created" entries files
                Hl H) as [_ [[E _]|[[_ ->]|[E _]]]]; try discriminate E.
    eexists. split; [reflexivity |]. intro t.
    exact (sort_keeps_ties Py.flt st_ctime float_equal float_ties_not_below
             t (filter is_mp4 entries)).
  - destruct (find_mp4_files_sorted folder_path "date_modified" entries files
                Hl H) as [_ [[E _]|[[E _]|[_ ->]]]]; try discriminate E.
    eexists. split; [reflexivity |]. intro t.
    exact (sort_keeps_ties Py.flt st_mtime float_equal float_ties_not_below
             t (filter is_mp4 entries)).
Qed.

End DiscoveryOrder.

(** * The lines of the concat list *)

Section ConcatLines.
Import ConcatenateVideos.

Variable resolve : Path -> string.


Lemma quoted_path_escaped (s : string) : escaped_ok (quoted_path s) = true.
Proof.
  induction s as [|a s IH]; [reflexivity |]. cbn [quoted_path].
  destruct (Ascii.eqb a "\") eqn:Eb; [exact IH |].
  destruct (Ascii.eqb a "'") eqn:Eq.
  - cbn. exact IH.
  - cbn [escaped_ok]. rewrite Eb, Eq. exact IH.
Qed.

Lemma drop_backslashes_quoted (s : string) :
  Py.contains_char "\" s = false -> drop_backslashes (quoted_path s) = s.
Proof.
  induction s as [|a s IH]; [reflexivity |].
  cbn [Py.contains_char quoted_path]. intro H.
  apply orb_false_iff in H. destruct H as [Ha Hs]. rewrite Ha.
  destruct (Ascii.eqb a "'") eqn:Eq.
  - apply Ascii.eqb_eq in Eq. subst a. cbn. now rewrite (IH Hs).
  - cbn [drop_backslashes]. rewrite Ha, (IH Hs). reflexivity.
Qed.

Lemma append_length (a b : string) :
  String.length (a ++ b) = (String.length a + String.length b)%nat.
Proof. induction a as [|x a IH]; cbn; [reflexivity | now rewrite IH]. Qed.

Lemma append_cancel_r (a b t : string) : a ++ t = b ++ t -> a = b.
Proof.
  revert b. induction a as [|x a IH]; intros [|y b] H; cbn in H.
  - reflexivity.
  - apply (f_equal String.length) in H. cbn in H. rewrite append_length in H.
    lia.
  - apply (f_equal String.length) in H. cbn in H. rewrite append_length in H.
    lia.
  - injection H as -> H. now rewrite (IH b H).
Qed.

Lemma write_entry_shape (written : string) (f : Path) :
  write_entry resolve written f
  = written ++ "file '" ++ quoted_path (resolve f) ++ "'" ++ nl.
Proof.
  rewrite write_entry_line. unfold concat_line, concat_entry.
  f_equal. cbn [append]. do 6 f_equal. apply append_assoc.
Qed.


(** X25.  In the path of every line, each single quote has a backslash in
    front of it and no other backslash is left: the quoted path never holds
    a bare quote that would close the quotes around it. *)
Theorem written_path_is_escaped (written : string) (f : Path) :
  exists quoted,
    write_entry resolve written f = written ++ "file '" ++ quoted ++ "'" ++ nl
    /\ escaped_ok quoted = true.
Proof.
  exists (quoted_path (resolve f)).
  split; [apply write_entry_shape | apply quoted_path_escaped].
Qed.

(** X26.  Two files whose resolved paths hold no backslash and differ get
    different lines: from equal lines, equal paths. *)
Theorem equal_lines_equal_paths (f g : Path) :
  Py.contains_char "\" (resolve f) = false ->
  Py.contains_char "\" (resolve g) = false ->
  write_entry resolve "" f = write_entry resolve "" g ->
  resolve f = resolve g.
Proof.
  intros Hf Hg H. rewrite !write_entry_shape in H. cbn [append] in H.
  injection H as H. apply append_cancel_r in H.
  rewrite <- (drop_backslashes_quoted _ Hf), <- (drop_backslashes_quoted _ Hg).
  now rewrite H.
Qed.

End ConcatLines.

(** * Runs of the concatenation tool *)

Section ConcatRuns.
Import ConcatenateVideos.

Variable Path_of : string -> Path.
Variable lookup : Path -> option node.
Variable path_join : string -> string -> string.
Variable resolve : Path -> string.
Variable subprocess_run : list string -> result (Z * string).
Variable abspath : string -> string.
Variable basename : string -> string.
Variable dirname : string -> string.
Variable makedirs : string -> result unit.
Variable mkdtemp : result string.
Variable write_file : string -> string -> result unit.

(** The loop over the names only prints. *)
Lemma print_names_prints (i : Z) (mp4_files : list Path) :
  exists tr,
    print_names i mp4_files = (tr, Return tt)
    /\ filter is_subprocess tr = [].
Proof.
  revert i. induction mp4_files as [|f l IH]; intro i; cbn [print_names].
  - exists []. split; reflexivity.
  - destruct (IH (i + 1)%Z) as [tr [E Htr]]. rewrite E.
    eexists. split; [reflexivity |]. cbn. exact Htr.
Qed.

(** X27.  Once its temporary directory exists, [concatenate_videos] always
    returns and never raises: it writes the list file, starts the concat
    command on it only if the write succeeded, and returns true exactly
    when the write succeeded and the command returned status 0; a failed
    write or a command that cannot be started gives false. *)
Theorem concatenate_videos_returns (mp4_files : list Path)
    (output_path temp_dir : string) :
  mkdtemp = Ok temp_dir ->
  let list_file := create_concat_file path_join resolve mp4_files temp_dir in
  let cmd := concat_command (fst list_file) output_path in
  let run :=
    concatenate_videos path_join resolve subprocess_run mkdtemp write_file
      mp4_files output_path in
  filter is_subprocess (Proc.trace run)
  = match write_file (fst list_file) (snd list_file) with
    | Ok _ => [Subprocess cmd]
    | Raise _ => []
    end
  /\ exists b,
       Proc.final run = Return b
       /\ (b = true
           <-> (exists u, write_file (fst list_file) (snd list_file) = Ok u)
               /\ exists err, subprocess_run cmd = Ok (0%Z, err)).
Proof.
  intros Hmk list_file cmd run. subst run cmd list_file.
  unfold concatenate_videos. rewrite Hmk.
  destruct (print_names_prints 1 mp4_files) as [tr [-> Htr]].
  unfold Proc.trace, Proc.final. concat_eval.
  destruct (create_concat_file path_join resolve mp4_files temp_dir)
    as [path content].
  cbn [fst snd].
  destruct (write_file path content) as [u|e].
  - destruct (subprocess_run (concat_command path output_path))
      as [[rc err]|e] eqn:Er;
      [destruct rc |]; concat_eval; rewrite ?Er; concat_eval;
      rewrite filter_app, Htr; cbn [app filter is_subprocess];
      (split; [reflexivity |]); eexists; (split; [reflexivity |]).
    + split; eauto.
    + split; [discriminate | intros [_ [err' H]]; discriminate H].
    + split; [discriminate | intros [_ [err' H]]; discriminate H].
    + split; [discriminate | intros [_ [err' H]]; discriminate H].
  - concat_eval. rewrite filter_app, Htr. cbn [app filter is_subprocess].
    split; [reflexivity |]. eexists. split; [reflexivity |].
    split; [discriminate | intros [[u H] _]; discriminate H].
Qed.

(** How [concatenate_videos] ends, on files [mp4_files] and output
    [output_path]: true when the directory, the write and the command all
    succeed, an exception when the directory cannot be made, false
    otherwise. *)
Lemma concatenate_videos_final (mp4_files : list Path) (output_path : string) :
  Proc.final
    (concatenate_videos path_join resolve subprocess_run mkdtemp write_file
       mp4_files output_path)
  = match mkdtemp with
    | Raise e => Raised e
    | Ok temp_dir =>
        let list_file :=
          create_concat_file path_join resolve mp4_files temp_dir in
        match write_file (fst list_file) (snd list_file) with
        | Raise _ => Return false
        | Ok _ =>
            match subprocess_run (concat_command (fst list_file) output_path)
            with
            | Ok (0%Z, _) => Return true
            | _ => Return false
            end
        end
    end.
Proof.
  unfold concatenate_videos.
  destruct (print_names_prints 1 mp4_files) as [tr [-> Htr]].
  unfold Proc.final. destruct mkdtemp as [temp_dir|e]; [| reflexivity].
  concat_eval.
  destruct (create_concat_file path_join resolve mp4_files temp_dir)
    as [path content].
  cbn [fst snd].
  destruct (write_file path content) as [u|e]; [| reflexivity].
  destruct (subprocess_run (concat_command path output_path))
    as [[rc err]|e] eqn:Er; [destruct rc |]; concat_eval; rewrite ?Er;
    reflexivity.
Qed.

(** X28.  Once [parse_args] has returned the arguments, [main] of the
    concatenation tool never falls off its end: it ends in [sys.exit(0)]
    or [sys.exit(1)], or, when the probe for ffmpeg raised something other
    than [FileNotFoundError], in that exception.  A temporary directory
    that cannot be created ends it with [sys.exit(1)] like any other
    error. *)
Theorem concat_main_ends_in_exit (args : Args) :
  let run :=
    main Path_of lookup path_join resolve subprocess_run abspath basename
      dirname makedirs mkdtemp write_file args in
  Proc.final run = Exited 0%Z
  \/ Proc.final run = Exited 1%Z
  \/ exists e, Proc.final run = Raised e
               /\ subprocess_run probe_command = Raise e
               /\ forall m, e <> FileNotFoundError m.
Proof.
  cbv zeta. unfold main, check_ffmpeg, probe_command.
  destruct (subprocess_run ["ffmpeg"; "-version"]) as [[rc err]|e].
  2:{ destruct e; proc_eval; auto; right; right; eexists;
      (split; [reflexivity | split; [reflexivity | discriminate]]). }
  destruct rc; proc_eval; auto.
  destruct (find_mp4_files _ _ _ _) as [files|e]; proc_eval; auto.
  destruct (makedirs _); proc_eval; auto.
  match goal with |- context [concatenate_videos ?a ?b ?c ?d ?e ?f ?g] =>
    pose proof (concatenate_videos_final f g) as Hf;
    destruct (concatenate_videos a b c d e f g) as [trc oc]
  end.
  unfold Proc.final in Hf. cbn [snd] in Hf. subst oc.
  destruct mkdtemp as [temp_dir|e]; [| proc_eval; auto].
  cbv zeta. destruct (write_file _ _); [| proc_eval; auto].
  destruct (subprocess_run _) as [[rc err']|e]; [destruct rc |];
    proc_eval; auto.
Qed.

Lemma concat_main_success (args : Args) (files : list Path)
    (temp_dir err0 err : string) (u : unit) :
  subprocess_run probe_command = Ok (0%Z, err0) ->
  find_mp4_files Path_of lookup (folder args) (sort args) = Ok files ->
  makedirs (dirname (abspath (concat_output abspath basename args))) = Ok tt ->
  mkdtemp = Ok temp_dir ->
  write_file (fst (create_concat_file path_join resolve files temp_dir))
    (snd (create_concat_file path_join resolve files temp_dir))
  = Ok u ->
  subprocess_run
    (concat_command (fst (create_concat_file path_join resolve files temp_dir))
       (abspath (concat_output abspath basename args)))
  = Ok (0%Z, err) ->
  Proc.final
    (main Path_of lookup path_join resolve subprocess_run abspath basename
       dirname makedirs mkdtemp write_file args)
  = Exited 0%Z.
Proof.
  intros Hp Hfind Hm Hmk Hw Hr.
  pose proof (concatenate_videos_final files
                (abspath (concat_output abspath basename args))) as Hf.
  rewrite Hmk in Hf. cbv zeta in Hf. rewrite Hw, Hr in Hf.
  unfold main, check_ffmpeg. unfold probe_command in Hp. rewrite Hp.
  proc_eval. rewrite Hfind. proc_eval.
  unfold concat_output in Hm, Hf. rewrite Hm. proc_eval. rewrite Hmk.
  match goal with |- context [concatenate_videos ?a ?b ?c ?d ?e ?f ?g] =>
    destruct (concatenate_videos a b c d e f g) as [trc oc] eqn:Ec
  end.
  unfold Proc.final in Hf. cbn [snd] in Hf. subst oc. reflexivity.
Qed.

Lemma concat_main_success_only (args : Args) :
  Proc.final
    (main Path_of lookup path_join resolve subprocess_run abspath basename
       dirname makedirs mkdtemp write_file args)
  = Exited 0%Z ->
  (exists err0, subprocess_run probe_command = Ok (0%Z, err0))
  /\ exists files temp_dir u err,
       find_mp4_files Path_of lookup (folder args) (sort args) = Ok files
       /\ makedirs (dirname (abspath (concat_output abspath basename args)))
          = Ok tt
       /\ mkdtemp = Ok temp_dir
       /\ write_file
            (fst (create_concat_file path_join resolve files temp_dir))
            (snd (create_concat_file path_join resolve files temp_dir))
          = Ok u
       /\ subprocess_run
            (concat_command
               (fst (create_concat_file path_join resolve files temp_dir))
               (abspath (concat_output abspath basename args)))
          = Ok (0%Z, err).
Proof.
  unfold main, check_ffmpeg, probe_command, concat_output.
  destruct (subprocess_run ["ffmpeg"; "-version"]) as [[rc err0]|e].
  2:{ destruct e; proc_eval; discriminate. }
  destruct rc; proc_eval; try discriminate.
  destruct (find_mp4_files _ _ _ _) as [files|e] eqn:Hfind; proc_eval;
    try discriminate.
  destruct (makedirs _) as [[]|e] eqn:Hm; proc_eval; try discriminate.
  match goal with |- context [concatenate_videos ?a ?b ?c ?d ?e ?f ?g] =>
    pose proof (concatenate_videos_final f g) as Hf;
    destruct (concatenate_videos a b c d e f g) as [trc oc]
  end.
  unfold Proc.final in Hf. cbn [snd] in Hf. subst oc.
  destruct mkdtemp as [temp_dir|e] eqn:Hmk; [| proc_eval; discriminate].
  cbv zeta.
  destruct (write_file _ _) as [u|e] eqn:Hw; [| proc_eval; discriminate].
  destruct (subprocess_run (concat_command _ _)) as [[rc err]|e] eqn:Hr;
    [destruct rc |]; proc_eval; try discriminate.
  intros _. split; [eexists; reflexivity |].
  exists files, temp_dir, u, err. repeat split; assumption.
Qed.

(** X29.  Once [parse_args] has returned the arguments, [main] of the
    concatenation tool ends in [sys.exit(0)] exactly when the probe for
    ffmpeg returns status 0, discovery returns files, the output directory
    and the temporary directory can be created, the list file can be
    written, and the concat command on that list file and the absolute
    output path returns status 0. *)
Theorem concat_main_exit_zero (args : Args) :
  Proc.final
    (main Path_of lookup path_join resolve subprocess_run abspath basename
       dirname makedirs mkdtemp write_file args)
  = Exited 0%Z
  <->
  (exists err0, subprocess_run probe_command = Ok (0%Z, err0))
  /\ exists files temp_dir u err,
       find_mp4_files Path_of lookup (folder args) (sort args) = Ok files
       /\ makedirs (dirname (abspath (concat_output abspath basename args)))
          = Ok tt
       /\ mkdtemp = Ok temp_dir
       /\ write_file
            (fst (create_concat_file path_join resolve files temp_dir))
            (snd (create_concat_file path_join resolve files temp_dir))
          = Ok u
       /\ subprocess_run
            (concat_command
               (fst (create_concat_file path_join resolve files temp_dir))
               (abspath (concat_output abspath basename args)))
          = Ok (0%Z, err).
Proof.
  split; [apply concat_main_success_only |].
  intros ([err0 Hp] & files & temp_dir & u & err & Hfind & Hm & Hmk & Hw & Hr).
  exact (concat_main_success args files temp_dir err0 err u Hp Hfind Hm Hmk Hw
           Hr).
Qed.

(** X30.  The concatenation tool probes for ffmpeg before it looks at the
    folder, and a failed discovery (a missing folder, a path that is not a
    directory, no MP4 file, an invalid sort method) ends the run right
    after the probe with the message of the error and [sys.exit(1)]: no
    directory is created and no concat command is started. *)
Theorem concat_main_discovery_error (args : Args) (err0 : string) (e : exn) :
  subprocess_run probe_command = Ok (0%Z, err0) ->
  find_mp4_files Path_of lookup (folder args) (sort args) = Raise e ->
  main Path_of lookup path_join resolve subprocess_run abspath basename
    dirname makedirs mkdtemp write_file args
  = ([Subprocess probe_command; Print ("❌ Error: " ++ exn_str e)], Exited 1%Z).
Proof.
  intros Hp Hf. unfold main, check_ffmpeg. unfold probe_command in *.
  rewrite Hp. proc_eval. rewrite Hf. reflexivity.
Qed.

End ConcatRuns.

(** * The properties at concrete inputs *)

(** X2 on a machine where everything succeeds. *)
Lemma overlay_main_exit_zero_witness :
  Proc.final
    (OverlayImage.main example_path (fun _ => true) run_ok example_abspath
       example_dirname example_makedirs (example_overlay_args None))
  = Exited 0%Z.
Proof.
  apply (proj2 (overlay_main_exit_zero example_path (fun _ => true) run_ok
                  example_abspath example_dirname example_makedirs
                  (example_overlay_args None))).
  split; [vm_compute; reflexivity |].
  split; [exists ""; reflexivity |].
  exists (example_path "clip.mp4"), (example_path "logo.png"),
    "[0:v][1:v]overlay=main_w-overlay_w-10:10", "".
  repeat split; vm_compute; reflexivity.
Defined.

(** X4 on a machine without ffmpeg. *)
Lemma overlay_main_without_ffmpeg_witness :
  OverlayImage.main example_path (fun _ => true) run_absent example_abspath
    example_dirname example_makedirs (example_overlay_args None)
  = ([Subprocess probe_command;
      Print "❌ Error: ffmpeg is not installed or not available in system PATH";
      Print "Please install ffmpeg and ensure it's accessible from command line"],
     Exited 1%Z).
Proof.
  apply (overlay_main_without_ffmpeg example_path (fun _ => true) run_absent
           example_abspath example_dirname example_makedirs
           (example_overlay_args None)).
  - vm_compute. reflexivity.
  - left. exists "No such file or directory: 'ffmpeg'". reflexivity.
Defined.

(** X5 on a machine where no file exists. *)
Lemma overlay_main_invalid_files_witness :
  OverlayImage.main example_path (fun _ => false) run_ok example_abspath
    example_dirname example_makedirs (example_overlay_args None)
  = ([Subprocess probe_command;
      Print ("❌ Error: "
               ++ exn_str (FileNotFoundError
                             "Video file does not exist: clip.mp4"))],
     Exited 1%Z).
Proof.
  apply (overlay_main_invalid_files example_path (fun _ => false) run_ok
           example_abspath example_dirname example_makedirs
           (example_overlay_args None) "").
  - vm_compute. reflexivity.
  - reflexivity.
  - reflexivity.
Defined.

(** X6 with the start time [abc]. *)
Lemma overlay_main_graph_error_witness :
  OverlayImage.main example_path (fun _ => true) run_ok example_abspath
    example_dirname example_makedirs (example_overlay_args (Some "abc"))
  = ([Subprocess probe_command;
      Makedirs
        (example_dirname
           (example_abspath
              (overlay_output (example_overlay_args (Some "abc"))
                 (example_path "clip.mp4"))));
      Print ("Overlaying image: " ++ name (example_path "logo.png"));
      Print ("On video: " ++ name (example_path "clip.mp4"));
      Print ("Position: "
               ++ OverlayImage.position (example_overlay_args (Some "abc")));
      Print ("Output: "
               ++ example_abspath
                    (overlay_output (example_overlay_args (Some "abc"))
                       (example_path "clip.mp4")));
      Print ("❌ Error: "
               ++ exn_str (ValueError
                             "could not convert string to float: 'abc'"))],
     Exited 1%Z).
Proof.
  apply (overlay_main_graph_error example_path (fun _ => true) run_ok
           example_abspath example_dirname example_makedirs
           (example_overlay_args (Some "abc")) ""
           (example_path "clip.mp4") (example_path "logo.png")).
  - vm_compute. reflexivity.
  - reflexivity.
  - vm_compute. reflexivity.
  - reflexivity.
  - vm_compute. reflexivity.
Defined.

(** X7 on two files that exist, one upper-case in its suffix. *)
Lemma validate_files_accepts_witness :
  OverlayImage.validate_files example_path (fun _ => true) "clip.MP4" "logo.png"
  = Ok (example_path "clip.MP4", example_path "logo.png").
Proof.
  apply (proj2 (validate_files_accepts example_path (fun _ => true)
                  "clip.MP4" "logo.png"
                  (example_path "clip.MP4", example_path "logo.png"))).
  repeat split; vm_compute; reflexivity.
Defined.

(** X8 on a video with an unsupported suffix next to a missing image: the
    missing image is what is reported. *)
Lemma validate_files_errors_witness :
  (only_video (example_path "clip.mp4") = false
   /\ FileNotFoundError "Image file does not exist: logo.txt"
      = FileNotFoundError ("Video file does not exist: " ++ "clip.mp4"))
  \/ (only_video (example_path "clip.mp4") = true
      /\ only_video (example_path "logo.txt") = false
      /\ FileNotFoundError "Image file does not exist: logo.txt"
         = FileNotFoundError ("Image file does not exist: " ++ "logo.txt"))
  \/ (only_video (example_path "clip.mp4") = true
      /\ only_video (example_path "logo.txt") = true
      /\ exists m,
           FileNotFoundError "Image file does not exist: logo.txt"
           = ValueError m).
Proof.
  apply (validate_files_errors example_path only_video "clip.mp4" "logo.txt").
  reflexivity.
Defined.

(** X10 on the default overlay with an ffmpeg that fails. *)
Lemma overlay_runs_command_once_witness :
  let cmd :=
    overlay_command (example_path "clip.mp4") (example_path "logo.png")
      "[0:v][1:v]overlay=main_w-overlay_w-10:10" "/work/out.mp4" in
  let run :=
    OverlayImage.overlay_image_on_video run_failing (example_path "clip.mp4")
      (example_path "logo.png") "/work/out.mp4" "top-right" None
      (float_literal "1.0") 10 10 None None in
  filter is_subprocess (Proc.trace run) = [Subprocess cmd]
  /\ exists b, Proc.final run = Return b
               /\ (b = true <-> exists err, run_failing cmd = Ok (0%Z, err)).
Proof.
  apply (overlay_runs_command_once run_failing (example_path "clip.mp4")
           (example_path "logo.png") "/work/out.mp4" "top-right" None
           (float_literal "1.0") 10%Z 10%Z None None
           "[0:v][1:v]overlay=main_w-overlay_w-10:10").
  vm_compute. reflexivity.
Defined.

(** X11 with a scale percentage that is no number. *)
Lemma overlay_graph_error_escapes_witness :
  OverlayImage.overlay_image_on_video run_ok (example_path "clip.mp4")
    (example_path "logo.png") "/work/out.mp4" "top-right" (Some "big%")
    (float_literal "1.0") 10 10 None None
  = ([Print ("Overlaying image: " ++ name (example_path "logo.png"));
      Print ("On video: " ++ name (example_path "clip.mp4"));
      Print ("Position: " ++ "top-right");
      Print ("Output: " ++ "/work/out.mp4")],
     Raised (ValueError "could not convert string to float: 'big'")).
Proof.
  apply (overlay_graph_error_escapes run_ok (example_path "clip.mp4")
           (example_path "logo.png") "/work/out.mp4" "top-right" (Some "big%")
           (float_literal "1.0") 10%Z 10%Z None None).
  vm_compute. reflexivity.
Defined.

(** X12 on the graph with all three segments. *)
Lemma graph_segment_count_witness :
  List.length example_graph
  = ((if Py.truthy (Some "50%") then 1 else 0)
     + (if Py.flt (float_literal "0.7") (float_literal "1.0") then 1 else 0)
     + 1)%nat.
Proof.
  apply (graph_segment_count "center" (Some "50%") (float_literal "0.7")
           10%Z 10%Z None None example_graph).
  vm_compute. reflexivity.
Defined.

(** X13 on the graph with all three segments. *)
Lemma overlay_reads_fresh_tag_witness :
  exists before input tail,
    example_graph
    = app before
        ["[0:v]" ++ input ++ "overlay="
           ++ OverlayImage.get_position_filter "center" 10 10 ++ tail]
    /\ ((before = [] /\ input = "[1:v]")
        \/ exists earlier body, before = app earlier [body ++ input]).
Proof.
  apply (overlay_reads_fresh_tag "center" (Some "50%") (float_literal "0.7")
           10%Z 10%Z None None example_graph).
  vm_compute. reflexivity.
Defined.

(** X14 at opacity 2.0 with a scale. *)
Lemma opaque_overlay_has_no_opacity_segment_witness :
  OverlayImage.filter_parts "center" (Some "100:100") (float_literal "2.0")
    10 10 None None
  = Ok (["[1:v]scale=100:100[scaled]"]
          ++ [OverlayImage.overlay_filter "[scaled]"
                (OverlayImage.get_position_filter "center" 10 10) []])%list.
Proof.
  apply (opaque_overlay_has_no_opacity_segment "center" (Some "100:100")
           (float_literal "2.0") 10%Z 10%Z None None
           ["[1:v]scale=100:100[scaled]"] "[scaled]" []).
  - vm_compute. reflexivity.
  - reflexivity.
  - reflexivity.
Defined.

(** X15 with the start time 01:30. *)
Lemma start_only_gates_with_gte_witness :
  OverlayImage.filter_parts "top-left" None (float_literal "1.0") 0 0
    (Some "01:30") None
  = Ok ["[0:v][1:v]overlay=0:0:enable='gte(t,90.0)'"].
Proof.
  refine (eq_trans
    (start_only_gates_with_gte "top-left" None (float_literal "1.0") 0%Z 0%Z
       "01:30" None (float_literal "90.0") [] "[1:v]" _ _ _ _) _).
  - discriminate.
  - reflexivity.
  - vm_compute. reflexivity.
  - reflexivity.
  - vm_compute. reflexivity.
Defined.

(** X16 with a duration that is no time. *)
Lemma no_start_no_time_gate_witness :
  OverlayImage.filter_parts "top-left" None (float_literal "1.0") 0 0
    None (Some "soon")
  = Ok ["[0:v][1:v]overlay=0:0"].
Proof.
  refine (eq_trans
    (no_start_no_time_gate "top-left" None (float_literal "1.0") 0%Z 0%Z
       None (Some "soon") [] "[1:v]" _ _) _).
  - reflexivity.
  - reflexivity.
  - vm_compute. reflexivity.
Defined.


(** X18 on the components 01, 02 and 03. *)
Lemma parse_time_by_components_witness :
  OverlayImage.parse_time_to_seconds "01:02:03" = Ok (float_literal "3723.0")
  /\ OverlayImage.parse_time_to_seconds "02:03" = Ok (float_literal "123.0")
  /\ OverlayImage.parse_time_to_seconds "03" = Ok (float_literal "3.0").
Proof.
  pose proof (parse_time_by_components "01" "02" "03" eq_refl eq_refl eq_refl)
    as (H3 & H2 & H1).
  split; [| split].
  - refine (eq_trans H3 _). vm_compute. reflexivity.
  - refine (eq_trans H2 _). vm_compute. reflexivity.
  - refine (eq_trans H1 _). vm_compute. reflexivity.
Defined.

(** X19 on a string of five components, the last two no numbers. *)
Lemma parse_time_ignores_extra_components_witness :
  OverlayImage.parse_time_to_seconds "7:8:9:x:y" = Py.float_ "7".
Proof.
  exact (parse_time_ignores_extra_components "7" "8" "9" "x:y" eq_refl eq_refl
           eq_refl).
Defined.

(** X20 on the folder of three clips, by creation time. *)
Lemma discovery_returns_matching_files_witness :
  Permutation
    [example_path "c.MP4"; example_path "b.mp4"; example_path "A.mp4"]
    (map ConcatenateVideos.d_path
       (filter ConcatenateVideos.is_mp4 example_clips))
  /\ [example_path "c.MP4"; example_path "b.mp4"; example_path "A.mp4"] <> [].
Proof.
  apply (discovery_returns_matching_files example_path clips_lookup "clips"
           "date_created" example_clips).
  - reflexivity.
  - vm_compute. reflexivity.
Defined.

(** X21 on the folder that lists b.mp4, A.mp4, c.MP4: the files come back
    as A.mp4, b.mp4, c.MP4. *)
Lemma discovery_alphabetical_order_witness :
  StronglySorted
    (fun p q => String.ltb (Py.lower (name q)) (Py.lower (name p)) = false)
    [example_path "A.mp4"; example_path "b.mp4"; example_path "c.MP4"].
Proof.
  apply (discovery_alphabetical_order example_path clips_lookup "clips"
           example_clips).
  - reflexivity.
  - intros e [<-|[<-|[<-|[]]]] _; reflexivity.
  - vm_compute. reflexivity.
Defined.

(** X22 on the same folder, by creation time. *)
Lemma discovery_date_order_witness :
  exists sorted,
    [example_path "c.MP4"; example_path "b.mp4"; example_path "A.mp4"]
    = map ConcatenateVideos.d_path sorted
    /\ Permutation sorted (filter ConcatenateVideos.is_mp4 example_clips)
    /\ ordered_by Py.flt ConcatenateVideos.st_ctime sorted.
Proof.
  apply (proj1 (discovery_date_order example_path clips_lookup "clips"
                  example_clips
                  [example_path "c.MP4"; example_path "b.mp4";
                   example_path "A.mp4"] eq_refl)).
  vm_compute. reflexivity.
Defined.

(** X23 on a folder where x.mp4 and a.mp4 share a modification time: x.mp4
    stays in front of a.mp4. *)
Lemma discovery_keeps_order_of_ties_witness :
  exists sorted,
    [example_path "m.mp4"; example_path "x.mp4"; example_path "a.mp4"]
    = map ConcatenateVideos.d_path sorted
    /\ forall t,
         filter (fun e => float_equal (ConcatenateVideos.st_mtime e) t) sorted
         = filter (fun e => float_equal (ConcatenateVideos.st_mtime e) t)
             (filter ConcatenateVideos.is_mp4 tied_clips).
Proof.
  apply (proj2 (proj2 (discovery_keeps_order_of_ties example_path tied_lookup
                         "ties" tied_clips
                         [example_path "m.mp4"; example_path "x.mp4";
                          example_path "a.mp4"] eq_refl))).
  vm_compute. reflexivity.
Defined.


(** X26 on two path objects of one file. *)
Lemma equal_lines_equal_paths_witness : path_str same_file_1 = path_str same_file_2.
Proof.
  apply (equal_lines_equal_paths path_str same_file_1 same_file_2);
    reflexivity.
Defined.

(** X27 on the three clips with an ffmpeg that fails. *)
Lemma concatenate_videos_returns_witness :
  let files :=
    [example_path "A.mp4"; example_path "b.mp4"; example_path "c.MP4"] in
  let list_file :=
    ConcatenateVideos.create_concat_file example_join path_str files "/tmp/x" in
  let cmd := ConcatenateVideos.concat_command (fst list_file) "/work/out.mp4" in
  let run :=
    ConcatenateVideos.concatenate_videos example_join path_str run_failing
      (Ok "/tmp/x") example_write files "/work/out.mp4" in
  filter is_subprocess (Proc.trace run)
  = match example_write (fst list_file) (snd list_file) with
    | Ok _ => [Subprocess cmd]
    | Raise _ => []
    end
  /\ exists b,
       Proc.final run = Return b
       /\ (b = true
           <-> (exists u, example_write (fst list_file) (snd list_file) = Ok u)
               /\ exists err, run_failing cmd = Ok (0%Z, err)).
Proof.
  apply (concatenate_videos_returns example_join path_str run_failing
           (Ok "/tmp/x") example_write
           [example_path "A.mp4"; example_path "b.mp4"; example_path "c.MP4"]
           "/work/out.mp4" "/tmp/x").
  reflexivity.
Defined.

(** X29 on the folder of three clips, everything succeeding. *)
Lemma concat_main_exit_zero_witness :
  Proc.final
    (ConcatenateVideos.main example_path clips_lookup example_join path_str
       run_ok example_abspath example_basename example_dirname
       example_makedirs (Ok "/tmp/x") example_write
       (example_concat_args "clips"))
  = Exited 0%Z.
Proof.
  apply (proj2 (concat_main_exit_zero example_path clips_lookup example_join
                  path_str run_ok example_abspath example_basename
                  example_dirname example_makedirs (Ok "/tmp/x") example_write
                  (example_concat_args "clips"))).
  split; [exists ""; reflexivity |].
  exists [example_path "A.mp4"; example_path "b.mp4"; example_path "c.MP4"],
    "/tmp/x", tt, "".
  repeat split; vm_compute; reflexivity.
Defined.

(** X30 on a folder that does not exist. *)
Lemma concat_main_discovery_error_witness :
  ConcatenateVideos.main example_path clips_lookup example_join path_str
    run_ok example_abspath example_basename example_dirname example_makedirs
    (Ok "/tmp/x") example_write (example_concat_args "nowhere")
  = ([Subprocess probe_command;
      Print ("❌ Error: "
               ++ exn_str (FileNotFoundError "Folder does not exist: nowhere"))],
     Exited 1%Z).
Proof.
  apply (concat_main_discovery_error example_path clips_lookup example_join
           path_str run_ok example_abspath example_basename example_dirname
           example_makedirs (Ok "/tmp/x") example_write
           (example_concat_args "nowhere") "").
  - reflexivity.
  - reflexivity.
Defined.
